(** * Clueless: the two GraphQL diagnostic scripts

    A shallow embedding of [check_items.py] (the Checker) and
    [query_outfit_items.py] (the Fetcher).  Both scripts talk to an HTTP
    server through [requests.post] and write to standard output with
    [print]; an exception nobody catches ends the interpreter.  The
    embedding keeps these effects explicit: a script is a computation in a
    small state-and-exception monad over the chronological list of
    observable events, the server is an arbitrary function of the
    requests it has seen, and standard output is any text stream that can
    at least write ASCII. *)

From Stdlib Require Import ZArith Lia.
From stdpp Require Import base option list gmap strings pretty.

Set Warnings "-register-all".

Local Open Scope Z_scope.
Local Open Scope string_scope.
Local Open Scope list_scope.

(** ** Python values *)

(** The values [json.loads] can produce, which are also the values a
    [json=] payload is built from.  A [dict] has unique string keys, so it
    is a finite map; a [float] is never inspected by the scripts and only
    keeps its lexeme; a [str] is held as the bytes of its UTF-8 form, a
    code point above 127 taking one lead byte and one to three
    continuation bytes. *)
Inductive PyVal : Type :=
  | PNone
  | PBool (b : bool)
  | PInt (n : Z)
  | PFloat (lexeme : string)
  | PStr (s : string)
  | PList (l : list PyVal)
  | PDict (m : gmap string PyVal).

(** The exceptions the scripts can meet. *)
Inductive Exn : Type :=
  | ConnectionError
  | Timeout
  | JSONDecodeError
  | AttributeError
  | TypeError
  | UnicodeEncodeError.

(** [o.get(k, d)]: only a dict has the method. *)
Definition py_get (o : PyVal) (k : string) (d : PyVal) : Exn + PyVal :=
  match o with
  | PDict m => inr (default d (m !! k))
  | _ => inl AttributeError
  end.

(** A continuation byte of UTF-8: [10xxxxxx]. *)
Definition is_continuation (c : Ascii.ascii) : bool :=
  let n := Ascii.nat_of_ascii c in ((128 <=? n) && (n <? 192))%nat.

(** [len(s)] for a str: its code points, one per byte that is not a
    continuation byte. *)
Fixpoint py_str_len (s : string) : nat :=
  match s with
  | EmptyString => 0
  | String c s' => (if is_continuation c then 0 else 1) + py_str_len s'
  end.

(** [len(v)]: defined on the sized values, a [TypeError] on the others. *)
Definition py_len (v : PyVal) : Exn + Z :=
  match v with
  | PList l => inr (Z.of_nat (length l))
  | PDict m => inr (Z.of_nat (size m))
  | PStr s => inr (Z.of_nat (py_str_len s))
  | PNone | PBool _ | PInt _ | PFloat _ => inl TypeError
  end.

(** [str(n)] for an int. *)
Definition py_str_int (n : Z) : string := pretty n.

(** [range(start, stop)] as the list it iterates over. *)
Definition range (start stop : Z) : list Z :=
  map (fun i => start + Z.of_nat i) (seq 0 (Z.to_nat (stop - start))).

(** ** The HTTP exchange as the scripts see it *)

(** The verbs [requests] has a function for. *)
Inductive Method : Type := GET | OPTIONS | HEAD | POST | PUT | PATCH | DELETE.

(** What [requests.post(url, json=payload)] hands to the network. *)
Record Request : Type := mkRequest {
  req_method : Method;
  req_url : string;
  req_json : PyVal
}.

(** The attributes of the returned object that the scripts read:
    [res.status_code], [res.text], and the outcome of [res.json()]: the
    value it returns, or [None] when the body is not JSON and the call
    raises [JSONDecodeError].  Bodies on which the parser itself gives up
    (nesting beyond the recursion limit, an integer literal beyond the
    digit limit) are not among the responses modelled. *)
Record Response : Type := mkResponse {
  status_code : Z;
  text : string;
  json_body : option PyVal
}.

(** A call either returns a response, whatever its status, or raises. *)
Inductive Outcome : Type :=
  | Answers (res : Response)
  | Raises (e : Exn).

(** A server decides on the requests that came before and the present one. *)
Definition Server : Type := list Request -> Request -> Outcome.

(** What an observer of the process sees, in order of occurrence. *)
Inductive Event : Type :=
  | EvRequest (r : Request)
  | EvResponse (res : Response)
  | EvRaised (e : Exn)
  | EvPrint (line : string).

Definition Trace : Type := list Event.

(** The requests of a trace, oldest first. *)
Fixpoint requests_of (t : Trace) : list Request :=
  match t with
  | [] => []
  | EvRequest r :: t' => r :: requests_of t'
  | _ :: t' => requests_of t'
  end.

(** The lines [print] wrote, oldest first. *)
Fixpoint printed (t : Trace) : list string :=
  match t with
  | [] => []
  | EvPrint s :: t' => s :: printed t'
  | _ :: t' => printed t'
  end.

(** Standard output: every [print] ends its text with a newline. *)
Definition newline : string := String (Ascii.ascii_of_nat 10) EmptyString.

Fixpoint unlines (ls : list string) : string :=
  match ls with
  | [] => EmptyString
  | s :: ls' => s +:+ newline +:+ unlines ls'
  end.

Definition stdout (t : Trace) : string := unlines (printed t).

(** Requests that have left and whose call has not come back yet. *)
Fixpoint in_flight (t : Trace) (pending : Z) : Z :=
  match t with
  | [] => pending
  | EvRequest _ :: t' => in_flight t' (pending + 1)
  | EvResponse _ :: t' | EvRaised _ :: t' => in_flight t' (pending - 1)
  | EvPrint _ :: t' => in_flight t' pending
  end.

(** ** Standard output as a text stream *)

(** Is the text 7-bit ASCII. *)
Definition is_ascii_char (c : Ascii.ascii) : bool :=
  (Ascii.nat_of_ascii c <? 128)%nat.

Fixpoint is_ascii (s : string) : bool :=
  match s with
  | EmptyString => true
  | String c s' => is_ascii_char c && is_ascii s'
  end.

(** The encoding of [sys.stdout]: which texts it can write.  Whatever the
    encoding, it writes ASCII text. *)
Class Stdout : Type := {
  encodes : string -> bool;
  encodes_ascii : forall s, is_ascii s = true -> encodes s = true
}.

(** A stream that writes every text, as with UTF-8. *)
Definition utf8_stdout : Stdout :=
  {| encodes := fun _ => true; encodes_ascii := fun _ _ => eq_refl |}.

(** A stream that writes ASCII only, as with [PYTHONIOENCODING=ascii]. *)
Definition ascii_stdout : Stdout :=
  {| encodes := is_ascii; encodes_ascii := fun _ H => H |}.

(** ** Script computations *)

(** A computation extends the trace and ends with a value or with an
    exception on its way to the top level. *)
Definition Py (A : Type) : Type := Trace -> (Exn + A) * Trace.

Global Instance Py_ret : MRet Py := fun A (a : A) t => (inr a, t).

Global Instance Py_bind : MBind Py := fun A B (k : A -> Py B) (c : Py A) t =>
  match c t with
  | (inr a, t') => k a t'
  | (inl e, t') => (inl e, t')
  end.

(** A pure step that may raise. *)
Definition lift {A} (x : Exn + A) : Py A := fun t => (x, t).

(** [for x in xs: body]. *)
Fixpoint for_in (xs : list Z) (body : Z -> Py unit) : Py unit :=
  match xs with
  | [] => mret tt
  | x :: xs' => body x ;; for_in xs' body
  end.

(** [print(s)]: the text and a line feed go out, or the stream cannot
    encode the text and nothing is written. *)
Definition print {out : Stdout} (s : string) : Py unit :=
  fun t =>
    if encodes s then (inr tt, t ++ [EvPrint s])
    else (inl UnicodeEncodeError, t).

(** [res.json()]. *)
Definition res_json (res : Response) : Exn + PyVal :=
  match json_body res with
  | Some v => inr v
  | None => inl JSONDecodeError
  end.

(** How the interpreter ends: 0 after the last statement, 1 after an
    exception nobody caught. *)
Definition exit_status (r : Exn + unit) : Z :=
  match r with
  | inr _ => 0
  | inl _ => 1
  end.

(** ** The two scripts *)

Definition endpoint : string := "http://localhost:3000/graphql".

Definition checker_query : string :=
  "query OutfitItemsByOutfit($outfitId: Int!) { outfitItemsByOutfit(outfitId: $outfitId) { outfit_item_id } }".

Definition fetcher_query : string :=
  "query OutfitItemsByOutfit($outfitId: Int!) { outfitItemsByOutfit(outfitId: $outfitId) { outfit_item_id outfit_id item_id x_position y_position z_index transform item { item_id name image_url } } }".

(** The dict literal both scripts bind to [payload]. *)
Definition payload (query : string) (outfitId : Z) : PyVal :=
  PDict {[ "query" := PStr query;
           "variables" := PDict {[ "outfitId" := PInt outfitId ]} ]}.

(** [len(data.get('data', {}).get('outfitItemsByOutfit', []))]. *)
Definition item_count (data : PyVal) : Exn + Z :=
  match py_get data "data" (PDict ∅) with
  | inl e => inl e
  | inr inner =>
      match py_get inner "outfitItemsByOutfit" (PList []) with
      | inl e => inl e
      | inr items => py_len items
      end
  end.

(** [print(outfitId, length)]: the two ints, one space between them. *)
Definition checker_line (outfitId length : Z) : string :=
  py_str_int outfitId +:+ " " +:+ py_str_int length.

Section Scripts.

Context {out : Stdout}.
Variable server : Server.

(** [requests.post(url, json=payload)]: the request leaves, the call
    blocks, and it comes back with a response or raises. *)
Definition requests_post (url : string) (json : PyVal) : Py Response :=
  fun t =>
    let r := mkRequest POST url json in
    match server (requests_of t) r with
    | Answers res => (inr res, t ++ [EvRequest r; EvResponse res])
    | Raises e => (inl e, t ++ [EvRequest r; EvRaised e])
    end.

(** The body of the Checker's loop. *)
Definition check_one (outfitId : Z) : Py unit :=
  res ← requests_post endpoint (payload checker_query outfitId);
  data ← lift (res_json res);
  length ← lift (item_count data);
  print (checker_line outfitId length).

(** check_items.py *)
Definition check_items : Py unit := for_in (range 1 10) check_one.

(** query_outfit_items.py *)
Definition query_outfit_items : Py unit :=
  res ← requests_post endpoint (payload fetcher_query 3);
  print (py_str_int (status_code res));;
  print (text res).

End Scripts.

(** A run starts with nothing observed. *)
Definition run (script : Server -> Py unit) (server : Server) : (Exn + unit) * Trace :=
  script server [].

(** ** Servers and responses to run the scripts against *)

(** A server that treats every call alike. *)
Definition constant_server (o : Outcome) : Server := fun _ _ => o.

(** A server that answers the first [n] calls and fails the next ones. *)
Definition failing_after (n : nat) (res : Response) (e : Exn) : Server :=
  fun hist _ => if (length hist <? n)%nat then Answers res else Raises e.

(** The same server with every status code rewritten. *)
Definition with_status (f : Z -> Z) (server : Server) : Server :=
  fun hist r =>
    match server hist r with
    | Answers res =>
        Answers (mkResponse (f (status_code res)) (text res) (json_body res))
    | Raises e => Raises e
    end.

(** The double quote, to write JSON text. *)
Definition dq : string := String (Ascii.ascii_of_nat 34) EmptyString.
Definition quoted (s : string) : string := dq +:+ s +:+ dq.

Definition json_response (status : Z) (body : string) (v : PyVal) : Response :=
  mkResponse status body (Some v).

(** Scenario A of the spec: two items. *)
Definition scenario_A : Response :=
  json_response 200
    ("{" +:+ quoted "data" +:+ ":{" +:+ quoted "outfitItemsByOutfit" +:+ ":[{"
       +:+ quoted "outfit_item_id" +:+ ":1},{" +:+ quoted "outfit_item_id" +:+ ":2}]}}")
    (PDict {[ "data" := PDict {[ "outfitItemsByOutfit" :=
        PList [PDict {[ "outfit_item_id" := PInt 1 ]};
               PDict {[ "outfit_item_id" := PInt 2 ]}] ]} ]}).

(** Scenario B of the spec: an empty [data] object. *)
Definition scenario_B : Response :=
  json_response 200 ("{" +:+ quoted "data" +:+ ":{}}") (PDict {[ "data" := PDict ∅ ]}).

(** Scenario C of the spec: a 500 whose body is not JSON. *)
Definition scenario_C : Response := mkResponse 500 "Internal Error" None.

(** A GraphQL error envelope: [data] is present and null. *)
Definition null_data : Response :=
  json_response 200 ("{" +:+ quoted "data" +:+ ":null}") (PDict {[ "data" := PNone ]}).

(** The items key is present and null. *)
Definition null_items : Response :=
  json_response 200
    ("{" +:+ quoted "data" +:+ ":{" +:+ quoted "outfitItemsByOutfit" +:+ ":null}}")
    (PDict {[ "data" := PDict {[ "outfitItemsByOutfit" := PNone ]} ]}).

(** A 500 whose body is JSON all the same. *)
Definition error_500_with_json : Response :=
  json_response 500 ("{" +:+ quoted "data" +:+ ":{}}") (PDict {[ "data" := PDict ∅ ]}).

(** ** Vocabulary for the statements *)

(** The request the Checker sends for an id. *)
Definition checker_request (outfitId : Z) : Request :=
  mkRequest POST endpoint (payload checker_query outfitId).

(** The Fetcher's only request. *)
Definition fetcher_request : Request :=
  mkRequest POST endpoint (payload fetcher_query 3).

(** [variables.outfitId] of a request body, when it is there and an int. *)
Definition variables_outfitId (r : Request) : option Z :=
  match req_json r with
  | PDict m =>
      match m !! "variables" with
      | Some (PDict vars) =>
          match vars !! "outfitId" with
          | Some (PInt n) => Some n
          | _ => None
          end
      | _ => None
      end
  | _ => None
  end.

(** [res.json()] followed by the length computation. *)
Definition response_count (res : Response) : Exn + Z :=
  match res_json res with
  | inr data => item_count data
  | inl e => inl e
  end.

(** The events of an iteration that reaches its [print]. *)
Definition block (outfitId : Z) (p : Response * Z) : Trace :=
  [EvRequest (checker_request outfitId); EvResponse p.1;
   EvPrint (checker_line outfitId p.2)].

(** The events of as many complete iterations as there are responses. *)
Definition blocks (ids : list Z) (rs : list (Response * Z)) : Trace :=
  concat (zip_with block ids rs).

(** The count that goes with a response is the one the Checker computes. *)
Definition counted (p : Response * Z) : Prop := response_count p.1 = inr p.2.

(** The runs of the loop over [ids] against a server that has already
    seen [hist]: the events they add and how they end. *)
Inductive checker_run (server : Server) :
    list Request -> list Z -> Trace -> Exn + unit -> Prop :=
  | cr_done hist :
      checker_run server hist [] [] (inr tt)
  | cr_next hist id ids res n s r :
      server hist (checker_request id) = Answers res ->
      response_count res = inr n ->
      checker_run server (hist ++ [checker_request id]) ids s r ->
      checker_run server hist (id :: ids) (block id (res, n) ++ s) r
  | cr_raise hist id ids e :
      server hist (checker_request id) = Raises e ->
      checker_run server hist (id :: ids)
        [EvRequest (checker_request id); EvRaised e] (inl e)
  | cr_fault hist id ids res e :
      server hist (checker_request id) = Answers res ->
      response_count res = inl e ->
      checker_run server hist (id :: ids)
        [EvRequest (checker_request id); EvResponse res] (inl e).

(** The spec's reading of a dotted path: descend through objects, and the
    path is absent as soon as a level is not an object holding the key. *)
Fixpoint path_lookup (path : list string) (v : PyVal) : option PyVal :=
  match path with
  | [] => Some v
  | k :: path' =>
      match v with
      | PDict m =>
          match m !! k with
          | Some v' => path_lookup path' v'
          | None => None
          end
      | _ => None
      end
  end.

(** [data.outfitItemsByOutfit]. *)
Definition items_path : list string := ["data"; "outfitItemsByOutfit"].

(** How a run can stop short: the call raised, or the response could not
    be counted. *)
Definition fault_tail (id : Z) (e : Exn) (tail : Trace) : Prop :=
  tail = [EvRequest (checker_request id); EvRaised e] \/
  exists res, tail = [EvRequest (checker_request id); EvResponse res] /\
              response_count res = inl e.

(** [s.startswith(p)]. *)
Fixpoint starts_with (p s : string) : bool :=
  match p, s with
  | EmptyString, _ => true
  | String a p', String b s' => Ascii.eqb a b && starts_with p' s'
  | String _ _, EmptyString => false
  end.

(** Does a printed line belong to this id: does it start with the id and
    a space. *)
Definition line_of (outfitId : Z) (line : string) : bool :=
  starts_with (py_str_int outfitId +:+ " ") line.

(** Is the value a JSON object. *)
Definition is_dict (v : PyVal) : bool :=
  match v with
  | PDict _ => true
  | _ => false
  end.

(** A POST to the endpoint whose JSON body has the two members [query]
    and [variables], the latter with the one member [outfitId], an int. *)
Definition graphql_request (query : string) (outfitId : Z) (r : Request) : Prop :=
  req_method r = POST /\
  req_url r = "http://localhost:3000/graphql" /\
  exists m vars : gmap string PyVal,
    req_json r = PDict m /\
    dom m = {[ "query"; "variables" ]} /\
    m !! "query" = Some (PStr query) /\
    m !! "variables" = Some (PDict vars) /\
    dom vars = {[ "outfitId" ]} /\
    vars !! "outfitId" = Some (PInt outfitId).

(** Peel one event off an unknown prefix of a known trace. *)
Ltac split_prefix H pre :=
  destruct pre as [|? pre]; cbn [app] in H;
  [|injection H as <- H].

(** The digit a character stands for. *)
Definition digit_value (c : Ascii.ascii) : option N :=
  let n := Ascii.N_of_ascii c in
  if ((48 <=? n) && (n <=? 57))%N then Some (n - 48)%N else None.

(** The number a string of digits writes, read after the digits of [acc]. *)
Fixpoint digits_value (s : string) (acc : N) : option N :=
  match s with
  | EmptyString => Some acc
  | String c s' =>
      match digit_value c with
      | Some d => digits_value s' (10 * acc + d)%N
      | None => None
      end
  end.

(** The integer a decimal numeral writes: one digit at least, after an
    optional minus sign. *)
Definition decimal_value (s : string) : option Z :=
  match s with
  | EmptyString => None
  | String c s' =>
      if Ascii.eqb c (Ascii.ascii_of_nat 45) then
        match s' with
        | EmptyString => None
        | String _ _ => (fun n => - Z.of_N n) <$> digits_value s' 0
        end
      else Z.of_N <$> digits_value s 0
  end.

(** ** Vocabulary for the further properties *)

(** The values [len] accepts. *)
Definition sized (v : PyVal) : bool :=
  match v with
  | PList _ | PDict _ | PStr _ => true
  | PNone | PBool _ | PInt _ | PFloat _ => false
  end.

(** The line feed that [print] appends. *)
Definition nl : Ascii.ascii := Ascii.ascii_of_nat 10.

(** [s.count(c)] for a single character. *)
Fixpoint count_char (c : Ascii.ascii) (s : string) : nat :=
  match s with
  | EmptyString => 0
  | String a s' => (if Ascii.eqb a c then 1 else 0) + count_char c s'
  end.

(** What the server does at the Checker's call for id [k], when the calls
    for 1..k-1 came before it. *)
Definition reply (server : Server) (k : Z) : Outcome :=
  server (map checker_request (range 1 k)) (checker_request k).

(** The count of that call, or the exception that ends the iteration. *)
Definition reply_count (server : Server) (k : Z) : Exn + Z :=
  match reply server k with
  | Answers res => response_count res
  | Raises e => inl e
  end.

(** The lines of the ids up to the first one whose iteration raises. *)
Fixpoint expected_lines (server : Server) (ids : list Z) : list string :=
  match ids with
  | [] => []
  | k :: ids' =>
      match reply_count server k with
      | inr n => checker_line k n :: expected_lines server ids'
      | inl _ => []
      end
  end.

(** The first exception among the iterations, if any. *)
Fixpoint expected_result (server : Server) (ids : list Z) : Exn + unit :=
  match ids with
  | [] => inr tt
  | k :: ids' =>
      match reply_count server k with
      | inr _ => expected_result server ids'
      | inl e => inl e
      end
  end.

(** The events of those iterations, the one that raises included. *)
Fixpoint expected_trace (server : Server) (ids : list Z) : Trace :=
  match ids with
  | [] => []
  | k :: ids' =>
      match reply server k with
      | Raises e => [EvRequest (checker_request k); EvRaised e]
      | Answers res =>
          match response_count res with
          | inr n => block k (res, n) ++ expected_trace server ids'
          | inl _ => [EvRequest (checker_request k); EvResponse res]
          end
      end
  end.

(** Two outcomes the Checker cannot tell apart: the same exception, or
    responses with the same parsed body. *)
Definition same_parsed_body (o o' : Outcome) : Prop :=
  match o, o' with
  | Answers a, Answers b => json_body a = json_body b
  | Raises e, Raises e' => e = e'
  | _, _ => False
  end.

(** Two outcomes the Fetcher cannot tell apart: the same exception, or
    responses with the same status code and text. *)
Definition same_status_and_text (o o' : Outcome) : Prop :=
  match o, o' with
  | Answers a, Answers b => status_code a = status_code b /\ text a = text b
  | Raises e, Raises e' => e = e'
  | _, _ => False
  end.

(** The euro sign, one code point, three bytes in UTF-8. *)
Definition euro : string :=
  String (Ascii.ascii_of_nat 226)
    (String (Ascii.ascii_of_nat 130) (String (Ascii.ascii_of_nat 172) EmptyString)).

(** A body that is the euro sign and nothing else. *)
Definition euro_body : Response := mkResponse 200 euro None.

(** The items are a string of one character that is not ASCII. *)
Definition euro_items : Response :=
  json_response 200
    ("{" +:+ quoted "data" +:+ ":{" +:+ quoted "outfitItemsByOutfit" +:+ ":"
       +:+ quoted euro +:+ "}}")
    (PDict {[ "data" := PDict {[ "outfitItemsByOutfit" := PStr euro ]} ]}).

(** The items are an object with one member. *)
Definition object_items : Response :=
  json_response 200
    ("{" +:+ quoted "data" +:+ ":{" +:+ quoted "outfitItemsByOutfit" +:+ ":{"
       +:+ quoted "a" +:+ ":1}}}")
    (PDict {[ "data" := PDict {[ "outfitItemsByOutfit" := PDict {[ "a" := PInt 1 ]} ]} ]}).

(** * Properties *)

Section Properties.

Context {out : Stdout}.

(** ** Basic facts *)

Example range_1_10 : range 1 10 = [1; 2; 3; 4; 5; 6; 7; 8; 9].
Proof. reflexivity. Qed.

Example str_int_500 : py_str_int 500 = "500".
Proof. reflexivity. Qed.

Example get_present :
  py_get (PDict {[ "data" := PNone ]}) "data" (PDict ∅) = inr PNone.
Proof. reflexivity. Qed.

Lemma requests_of_app (t s : Trace) :
  requests_of (t ++ s) = requests_of t ++ requests_of s.
Proof.
  induction t as [|ev t IH]; simpl; [reflexivity|].
  destruct ev; simpl; rewrite IH; reflexivity.
Qed.

Lemma printed_app (t s : Trace) : printed (t ++ s) = printed t ++ printed s.
Proof.
  induction t as [|ev t IH]; simpl; [reflexivity|].
  destruct ev; simpl; rewrite IH; reflexivity.
Qed.

Lemma in_flight_app (t s : Trace) (k : Z) :
  in_flight (t ++ s) k = in_flight s (in_flight t k).
Proof.
  revert k; induction t as [|ev t IH]; intros k; simpl; [reflexivity|].
  destruct ev; apply IH.
Qed.

Lemma variables_outfitId_checker (id : Z) :
  variables_outfitId (checker_request id) = Some id.
Proof. reflexivity. Qed.

Lemma checker_request_inj (a b : Z) :
  checker_request a = checker_request b -> a = b.
Proof.
  intros H. apply (f_equal variables_outfitId) in H.
  rewrite !variables_outfitId_checker in H. congruence.
Qed.

(** ** What the scripts print is ASCII, but for the body text *)

Lemma is_ascii_app (s1 s2 : string) :
  is_ascii (s1 +:+ s2) = is_ascii s1 && is_ascii s2.
Proof.
  induction s1 as [|c s1 IH]; simpl; [reflexivity|].
  rewrite IH. apply andb_assoc.
Qed.

Lemma is_ascii_pretty_N_char (d : N) : is_ascii_char (pretty_N_char d) = true.
Proof. unfold pretty_N_char. repeat case_match; reflexivity. Qed.

Lemma is_ascii_pretty_N_go (x : N) :
  forall s, is_ascii (pretty_N_go x s) = is_ascii s.
Proof.
  induction x as [x IH] using (well_founded_induction N.lt_wf_0). intros s.
  destruct (decide (0 < x)%N) as [Hpos|Hzero].
  - rewrite pretty_N_go_step by exact Hpos.
    rewrite IH by (apply N.div_lt; lia).
    cbn [is_ascii]. rewrite is_ascii_pretty_N_char. reflexivity.
  - replace x with 0%N by lia. reflexivity.
Qed.

Lemma is_ascii_pretty_N (x : N) : is_ascii (pretty x) = true.
Proof.
  unfold pretty, pretty_N. destruct (decide (x = 0%N)); [reflexivity|].
  apply is_ascii_pretty_N_go.
Qed.

Lemma is_ascii_py_str_int (z : Z) : is_ascii (py_str_int z) = true.
Proof.
  unfold py_str_int, pretty, pretty_Z. destruct z as [|p|p].
  - reflexivity.
  - apply (is_ascii_pretty_N (Npos p)).
  - change (is_ascii (String (Ascii.ascii_of_nat 45) (pretty (Npos p))) = true).
    cbn [is_ascii]. rewrite (is_ascii_pretty_N (Npos p)). reflexivity.
Qed.

Lemma is_ascii_checker_line (id n : Z) : is_ascii (checker_line id n) = true.
Proof.
  unfold checker_line. rewrite !is_ascii_app, !is_ascii_py_str_int. reflexivity.
Qed.

Lemma print_ascii (s : string) (t : Trace) :
  is_ascii s = true -> print s t = (inr tt, t ++ [EvPrint s]).
Proof. intros Hs. unfold print. rewrite (encodes_ascii s Hs). reflexivity. Qed.

Lemma digit_value_pretty_N_char (d : N) :
  (d < 10)%N -> digit_value (pretty_N_char d) = Some d.
Proof.
  intros Hd.
  assert (d = 0 \/ d = 1 \/ d = 2 \/ d = 3 \/ d = 4 \/ d = 5 \/ d = 6 \/
          d = 7 \/ d = 8 \/ d = 9)%N as Hcases by lia.
  repeat (destruct Hcases as [->|Hcases]); try subst d; reflexivity.
Qed.

Lemma pretty_N_char_not_minus (d : N) :
  Ascii.eqb (pretty_N_char d) (Ascii.ascii_of_nat 45) = false.
Proof. unfold pretty_N_char. repeat case_match; reflexivity. Qed.

Lemma digits_value_pretty_N_go (x : N) :
  forall s, digits_value (pretty_N_go x s) 0 = digits_value s x.
Proof.
  induction x as [x IH] using (well_founded_induction N.lt_wf_0). intros s.
  destruct (decide (0 < x)%N) as [Hpos|Hzero].
  - rewrite pretty_N_go_step by exact Hpos.
    rewrite IH by (apply N.div_lt; lia).
    cbn [digits_value].
    rewrite digit_value_pretty_N_char by (apply N.mod_lt; lia).
    f_equal. pose proof (N.div_mod' x 10). lia.
  - replace x with 0%N by lia. reflexivity.
Qed.

Lemma pretty_N_go_head (x : N) :
  forall s, (0 < x)%N -> exists d r, pretty_N_go x s = String (pretty_N_char d) r.
Proof.
  induction x as [x IH] using (well_founded_induction N.lt_wf_0). intros s Hpos.
  rewrite pretty_N_go_step by exact Hpos.
  destruct (decide (0 < x `div` 10)%N) as [Hdiv|Hdiv].
  - apply IH; [apply N.div_lt; lia|exact Hdiv].
  - destruct (x `div` 10)%N as [|q] eqn:Hq; [|lia]. rewrite pretty_N_go_0. eauto.
Qed.

(** [str] of an int is a decimal numeral of that int. *)
Lemma decimal_value_py_str_int (z : Z) : decimal_value (py_str_int z) = Some z.
Proof.
  unfold py_str_int, pretty, pretty_Z. destruct z as [|p|p].
  - reflexivity.
  - change (pretty p) with (pretty_N_go (Npos p) EmptyString).
    destruct (pretty_N_go_head (Npos p) EmptyString) as (d & r & Hhead); [lia|].
    rewrite Hhead. cbn [decimal_value]. rewrite pretty_N_char_not_minus.
    rewrite <- Hhead, digits_value_pretty_N_go. reflexivity.
  - change ("-" +:+ pretty p)
      with (String (Ascii.ascii_of_nat 45) (pretty_N_go (Npos p) EmptyString)).
    cbn [decimal_value]. rewrite Ascii.eqb_refl.
    destruct (pretty_N_go_head (Npos p) EmptyString) as (d & r & Hhead); [lia|].
    rewrite Hhead, <- Hhead, digits_value_pretty_N_go. reflexivity.
Qed.

Section Checker.

Variable server : Server.

(** One iteration, by cases on what the server does and on what the
    body holds. *)
Lemma check_one_step (id : Z) (t : Trace) :
  check_one server id t =
    match server (requests_of t) (checker_request id) with
    | Raises e => (inl e, t ++ [EvRequest (checker_request id); EvRaised e])
    | Answers res =>
        match response_count res with
        | inr n => (inr tt, t ++ block id (res, n))
        | inl e => (inl e, t ++ [EvRequest (checker_request id); EvResponse res])
        end
    end.
Proof.
  unfold check_one, mbind, Py_bind, requests_post, lift.
  fold (checker_request id).
  destruct (server (requests_of t) (checker_request id)) as [res|e]; [|reflexivity].
  unfold response_count.
  destruct (res_json res) as [e|data]; [reflexivity|].
  destruct (item_count data) as [e|n]; [reflexivity|].
  rewrite print_ascii by apply is_ascii_checker_line.
  unfold block; simpl. rewrite <- app_assoc. reflexivity.
Qed.

(** The loop follows [checker_run]. *)
Lemma for_in_checker_run (ids : list Z) (t : Trace) :
  exists s r,
    for_in ids (check_one server) t = (r, t ++ s) /\
    checker_run server (requests_of t) ids s r.
Proof.
  revert t; induction ids as [|id ids IH]; intros t.
  - exists [], (inr tt). rewrite app_nil_r. split; [reflexivity|constructor].
  - simpl. unfold mbind, Py_bind. rewrite check_one_step.
    destruct (server (requests_of t) (checker_request id)) as [res|e] eqn:Hs.
    + destruct (response_count res) as [e|n] eqn:Hc.
      * eexists _, _. split; [reflexivity|]. by apply cr_fault.
      * destruct (IH (t ++ block id (res, n))) as (s & r & Hrun & Hcr).
        exists (block id (res, n) ++ s), r. split.
        -- rewrite Hrun, <- app_assoc. reflexivity.
        -- eapply cr_next; eauto.
           rewrite requests_of_app in Hcr. exact Hcr.
    + eexists _, _. split; [reflexivity|]. by apply cr_raise.
Qed.

Lemma check_items_checker_run :
  checker_run server [] (range 1 10)
    (snd (run check_items server)) (fst (run check_items server)).
Proof.
  destruct (for_in_checker_run (range 1 10) []) as (s & r & Hrun & Hcr).
  unfold run, check_items. rewrite Hrun. exact Hcr.
Qed.

End Checker.

Lemma blocks_cons (id : Z) (ids : list Z) (p : Response * Z) rs :
  blocks (id :: ids) (p :: rs) = block id p ++ blocks ids rs.
Proof. reflexivity. Qed.

Lemma blocks_nil_r (ids : list Z) : blocks ids [] = [].
Proof. destruct ids; reflexivity. Qed.

Lemma requests_of_blocks (ids : list Z) (rs : list (Response * Z)) :
  requests_of (blocks ids rs) = map checker_request (take (length rs) ids).
Proof.
  revert rs; induction ids as [|id ids IH]; intros [|p rs]; try reflexivity.
  rewrite blocks_cons. simpl. rewrite IH. reflexivity.
Qed.

Lemma printed_blocks (ids : list Z) (rs : list (Response * Z)) :
  printed (blocks ids rs) = zip_with checker_line ids (rs.*2).
Proof.
  revert rs; induction ids as [|id ids IH]; intros [|p rs]; try reflexivity.
  rewrite blocks_cons. simpl. rewrite IH. reflexivity.
Qed.

Lemma in_flight_blocks (ids : list Z) (rs : list (Response * Z)) (k : Z) :
  in_flight (blocks ids rs) k = k.
Proof.
  revert rs k; induction ids as [|id ids IH]; intros [|p rs] k; try reflexivity.
  rewrite blocks_cons. simpl. rewrite IH. lia.
Qed.

(** Every run is a sequence of complete iterations, followed, when it
    ends with an exception, by the iteration that raised it. *)
Lemma checker_run_shape server hist ids s r :
  checker_run server hist ids s r ->
  exists rs tail,
    s = blocks ids rs ++ tail /\
    Forall counted rs /\
    match r with
    | inr _ => length rs = length ids /\ tail = []
    | inl e => exists id, ids !! length rs = Some id /\ fault_tail id e tail
    end.
Proof.
  induction 1 as [hist|hist id ids res n s r Hs Hc _ IH|hist id ids e Hs
                 |hist id ids res e Hs Hc].
  - exists [], []. repeat split; constructor.
  - destruct IH as (rs & tail & -> & Hrs & Hr).
    exists ((res, n) :: rs), tail. split; [|split].
    + rewrite blocks_cons, <- app_assoc. reflexivity.
    + constructor; [exact Hc|exact Hrs].
    + destruct r as [e|[]]; simpl.
      * exact Hr.
      * destruct Hr as [-> ->]. split; reflexivity.
  - eexists [], _. split; [reflexivity|].
    split; [constructor|]. exists id. split; [reflexivity|]. by left.
  - eexists [], _. split; [reflexivity|].
    split; [constructor|]. exists id. split; [reflexivity|]. right. eauto.
Qed.

Lemma range_lookup (start stop : Z) (i : nat) (x : Z) :
  range start stop !! i = Some x -> x = start + Z.of_nat i /\ x < stop.
Proof.
  unfold range. rewrite list_lookup_fmap.
  destruct (seq 0 (Z.to_nat (stop - start)) !! i) as [j|] eqn:Hj; simpl; [|done].
  apply lookup_seq in Hj as [-> Hlt]. intros [= <-]. lia.
Qed.

Lemma range_take (start stop : Z) (n : nat) :
  start + Z.of_nat n <= stop ->
  take n (range start stop) = range start (start + Z.of_nat n).
Proof.
  intros Hle. unfold range. rewrite <- fmap_take, take_seq.
  f_equal. f_equal. lia.
Qed.

Lemma range_length (start stop : Z) :
  length (range start stop) = Z.to_nat (stop - start).
Proof. unfold range. rewrite length_map, length_seq. reflexivity. Qed.

Lemma fault_tail_requests id e tail :
  fault_tail id e tail -> requests_of tail = [checker_request id].
Proof. intros [->|(res & -> & _)]; reflexivity. Qed.

Lemma fault_tail_printed id e tail : fault_tail id e tail -> printed tail = [].
Proof. intros [->|(res & -> & _)]; reflexivity. Qed.

(** C1.  Whatever the server does, the Checker's requests are an initial
    part of the requests for 1, 2, ..., 9 in that order and its lines an
    initial part of the lines for those ids.  In a run that no exception
    cuts short, the trace is the nine iterations in ascending order, so for
    every id in 1..9 exactly one request carries it in
    [variables.outfitId] and exactly one line is printed for it. *)
Theorem checker_one_request_one_line_per_id (server : Server) :
  let t := snd (run check_items server) in
  requests_of t `prefix_of` map checker_request (range 1 10) /\
  (exists counts, printed t = zip_with checker_line (range 1 10) counts) /\
  (fst (run check_items server) = inr tt ->
   exists rs,
     length rs = 9%nat /\ Forall counted rs /\
     t = blocks (range 1 10) rs /\
     requests_of t = map checker_request (range 1 10) /\
     Forall (fun r => req_method r = POST) (requests_of t) /\
     printed t = zip_with checker_line (range 1 10) rs.*2 /\
     forall id, 1 <= id <= 9 ->
       length (filter (fun r => variables_outfitId r = Some id) (requests_of t)) = 1%nat /\
       length (List.filter (line_of id) (printed t)) = 1%nat).
Proof.
  intros t. subst t.
  pose proof (check_items_checker_run server) as Hcr.
  apply checker_run_shape in Hcr as (rs & tail & Ht & Hrs & Hr).
  rewrite Ht, requests_of_app, printed_app, requests_of_blocks, printed_blocks.
  destruct (fst (run check_items server)) as [e|[]].
  - destruct Hr as (id & Hid & Htail).
    rewrite (fault_tail_requests _ _ _ Htail), (fault_tail_printed _ _ _ Htail).
    split; [|split; [|discriminate]].
    + change [checker_request id] with (map checker_request [id]).
      rewrite <- map_app, <- (take_S_r _ _ _ Hid).
      change (map checker_request) with (fmap (M:=list) checker_request).
      rewrite fmap_take. apply prefix_take.
    + exists rs.*2. rewrite app_nil_r. reflexivity.
  - destruct Hr as [Hlen ->]. rewrite !app_nil_r.
    rewrite range_length in Hlen. change (Z.to_nat (10 - 1)) with 9%nat in Hlen.
    rewrite take_ge by (rewrite range_length, Hlen; reflexivity).
    split; [reflexivity|]. split; [by exists rs.*2|]. intros _.
    exists rs. repeat split; try done.
    + apply Forall_forall. intros r Hr. apply list_elem_of_fmap in Hr as (id & -> & _).
      reflexivity.
    + assert (id = 1 \/ id = 2 \/ id = 3 \/ id = 4 \/ id = 5 \/ id = 6 \/
              id = 7 \/ id = 8 \/ id = 9) as Hcases by lia.
      clear H.
      repeat (destruct Hcases as [->|Hcases]); try subst id; reflexivity.
    + do 9 (destruct rs as [|[? ?] rs]; [discriminate Hlen|]).
      destruct rs; [|discriminate Hlen].
      assert (id = 1 \/ id = 2 \/ id = 3 \/ id = 4 \/ id = 5 \/ id = 6 \/
              id = 7 \/ id = 8 \/ id = 9) as Hcases by lia.
      clear H.
      repeat (destruct Hcases as [->|Hcases]); try subst id; reflexivity.
Qed.

Lemma item_count_list m d l :
  m !! "data" = Some (PDict d) ->
  d !! "outfitItemsByOutfit" = Some (PList l) ->
  item_count (PDict m) = inr (Z.of_nat (length l)).
Proof. unfold item_count; simpl. intros -> ; simpl. intros ->. reflexivity. Qed.

Lemma item_count_no_data m :
  m !! "data" = None -> item_count (PDict m) = inr 0.
Proof. unfold item_count; simpl. intros ->. reflexivity. Qed.

Lemma item_count_no_items m d :
  m !! "data" = Some (PDict d) ->
  d !! "outfitItemsByOutfit" = None ->
  item_count (PDict m) = inr 0.
Proof. unfold item_count; simpl. intros ->; simpl. intros ->. reflexivity. Qed.

Lemma item_count_null_items m d :
  m !! "data" = Some (PDict d) ->
  d !! "outfitItemsByOutfit" = Some PNone ->
  item_count (PDict m) = inl TypeError.
Proof. unfold item_count; simpl. intros ->; simpl. intros ->. reflexivity. Qed.

Lemma item_count_not_object v :
  is_dict v = false -> item_count v = inl AttributeError.
Proof. destruct v; simpl; (reflexivity || discriminate). Qed.

Lemma item_count_data_not_object m v :
  m !! "data" = Some v -> is_dict v = false ->
  item_count (PDict m) = inl AttributeError.
Proof.
  unfold item_count; simpl. intros ->; simpl.
  destruct v; simpl; (reflexivity || discriminate).
Qed.

(** An iteration whose response can be counted prints its line. *)
Lemma check_one_counted server id t res n :
  server (requests_of t) (checker_request id) = Answers res ->
  response_count res = inr n ->
  check_one server id t = (inr tt, t ++ block id (res, n)).
Proof. intros Hs Hc. rewrite check_one_step, Hs, Hc. reflexivity. Qed.

(** An iteration whose response cannot be counted raises before [print],
    and the loop ends with it. *)
Lemma for_in_fault server id ids t res e :
  server (requests_of t) (checker_request id) = Answers res ->
  response_count res = inl e ->
  for_in (id :: ids) (check_one server) t =
    (inl e, t ++ [EvRequest (checker_request id); EvResponse res]).
Proof.
  intros Hs Hc. simpl. unfold mbind, Py_bind.
  rewrite check_one_step, Hs, Hc. reflexivity.
Qed.

Lemma for_in_raise server id ids t e :
  server (requests_of t) (checker_request id) = Raises e ->
  for_in (id :: ids) (check_one server) t =
    (inl e, t ++ [EvRequest (checker_request id); EvRaised e]).
Proof.
  intros Hs. simpl. unfold mbind, Py_bind.
  rewrite check_one_step, Hs. reflexivity.
Qed.

(** C2, as the code has it.  For a response that is a JSON object whose
    [data] member, when present, is a JSON object: the count printed on the
    id's line is the length of the list at [data.outfitItemsByOutfit], and
    it is 0 when that path is absent, which then means that the [data] key
    is missing or that [outfitItemsByOutfit] is missing within [data].
    A response that is not an object, or whose [data] is present and not
    an object, makes the Checker raise [AttributeError] before any line is
    printed for the id.  The two-element list for id 3 gives the line [3 2] and an empty [data]
    object for id 5 gives [5 0]. *)
Theorem checker_count_of_object_response (server : Server) (t : Trace) :
  (forall id res m,
     server (requests_of t) (checker_request id) = Answers res ->
     json_body res = Some (PDict m) ->
     (m !! "data" = None \/ exists d, m !! "data" = Some (PDict d)) ->
     (forall l, path_lookup items_path (PDict m) = Some (PList l) ->
        check_one server id t = (inr tt, t ++ block id (res, Z.of_nat (length l)))) /\
     (path_lookup items_path (PDict m) = None ->
        check_one server id t = (inr tt, t ++ block id (res, 0)))) /\
  (forall id res v,
     server (requests_of t) (checker_request id) = Answers res ->
     json_body res = Some v ->
     is_dict v = false \/
       (exists m w, v = PDict m /\ m !! "data" = Some w /\ is_dict w = false) ->
     check_one server id t =
       (inl AttributeError, t ++ [EvRequest (checker_request id); EvResponse res])) /\
  (server (requests_of t) (checker_request 3) = Answers scenario_A ->
     printed (snd (check_one server 3 t)) = printed t ++ ["3 2"]) /\
  (server (requests_of t) (checker_request 5) = Answers scenario_B ->
     printed (snd (check_one server 5 t)) = printed t ++ ["5 0"]).
Proof.
  split; [|split; [|split]].
  - intros id res m Hs Hj Hdata.
    assert (forall n, item_count (PDict m) = inr n ->
            check_one server id t = (inr tt, t ++ block id (res, n))) as Hgo.
    { intros n Hn. apply check_one_counted; [exact Hs|].
      unfold response_count, res_json. rewrite Hj. exact Hn. }
    unfold items_path; simpl.
    destruct Hdata as [Hnone|[d Hd]].
    + rewrite Hnone. split; [discriminate|]. intros _.
      apply Hgo, item_count_no_data, Hnone.
    + rewrite Hd.
      destruct (d !! "outfitItemsByOutfit") as [v|] eqn:Hv.
      * split; [|discriminate]. intros l [= ->].
        eapply Hgo, item_count_list; eauto.
      * split; [discriminate|]. intros _.
        eapply Hgo, item_count_no_items; eauto.
  - intros id res v Hs Hj Hv.
    rewrite check_one_step, Hs. unfold response_count, res_json. rewrite Hj.
    destruct Hv as [Hv|(m & w & -> & Hw & Hd)].
    + rewrite (item_count_not_object _ Hv). reflexivity.
    + rewrite (item_count_data_not_object _ _ Hw Hd). reflexivity.
  - intros Hs. rewrite (check_one_counted _ _ _ _ 2 Hs eq_refl).
    simpl. rewrite printed_app. reflexivity.
  - intros Hs. rewrite (check_one_counted _ _ _ _ 0 Hs eq_refl).
    simpl. rewrite printed_app. reflexivity.
Qed.

(** C9.  When the response maps [data.outfitItemsByOutfit] to null, the
    key being present, the default is not used, [len] raises [TypeError],
    nothing is printed for the id and the script ends there with a
    non-zero status. *)
Theorem checker_null_items_type_error
    (server : Server) (id : Z) (ids : list Z) (t : Trace)
    (res : Response) (m d : gmap string PyVal) :
  server (requests_of t) (checker_request id) = Answers res ->
  json_body res = Some (PDict m) ->
  m !! "data" = Some (PDict d) ->
  d !! "outfitItemsByOutfit" = Some PNone ->
  check_one server id t =
    (inl TypeError, t ++ [EvRequest (checker_request id); EvResponse res]) /\
  for_in (id :: ids) (check_one server) t =
    (inl TypeError, t ++ [EvRequest (checker_request id); EvResponse res]) /\
  printed (snd (for_in (id :: ids) (check_one server) t)) = printed t /\
  exit_status (fst (for_in (id :: ids) (check_one server) t)) = 1.
Proof.
  intros Hs Hj Hm Hd.
  assert (response_count res = inl TypeError) as Hc.
  { unfold response_count, res_json. rewrite Hj.
    eapply item_count_null_items; eauto. }
  rewrite (for_in_fault _ _ ids _ _ _ Hs Hc).
  rewrite check_one_step, Hs, Hc. simpl.
  rewrite printed_app, app_nil_r. done.
Qed.

Lemma blocks_take (ids : list Z) (rs : list (Response * Z)) :
  blocks ids rs = blocks (take (length rs) ids) rs.
Proof.
  revert rs; induction ids as [|id ids IH]; intros [|p rs]; try reflexivity.
  simpl take. rewrite !blocks_cons, <- IH. reflexivity.
Qed.

Lemma check_items_shape (server : Server) :
  exists rs tail,
    snd (run check_items server) =
      blocks (range 1 (1 + Z.of_nat (length rs))) rs ++ tail /\
    Forall counted rs /\
    match fst (run check_items server) with
    | inr _ => length rs = 9%nat /\ tail = []
    | inl e => (length rs < 9)%nat /\
               fault_tail (1 + Z.of_nat (length rs)) e tail
    end.
Proof.
  pose proof (check_items_checker_run server) as Hcr.
  apply checker_run_shape in Hcr as (rs & tail & Ht & Hrs & Hr).
  exists rs, tail.
  assert (length rs <= 9)%nat as Hle.
  { destruct (fst (run check_items server)) as [e|u].
    - destruct Hr as (id & Hid & _). apply lookup_lt_Some in Hid.
      rewrite range_length in Hid. lia.
    - destruct Hr as [-> _]. rewrite range_length. lia. }
  split; [|split; [exact Hrs|]].
  - rewrite Ht, blocks_take, range_take by lia. reflexivity.
  - destruct (fst (run check_items server)) as [e|u].
    + destruct Hr as (id & Hid & Htail).
      pose proof (lookup_lt_Some _ _ _ Hid) as Hlt. rewrite range_length in Hlt.
      apply range_lookup in Hid as [-> _]. split; [lia|exact Htail].
    + destruct Hr as [Hlen ->]. rewrite range_length in Hlen. split; [lia|done].
Qed.

Lemma query_outfit_items_step (server : Server) (t : Trace) :
  query_outfit_items server t =
    match server (requests_of t) fetcher_request with
    | Answers res =>
        if encodes (text res)
        then (inr tt, t ++ [EvRequest fetcher_request; EvResponse res;
                            EvPrint (py_str_int (status_code res));
                            EvPrint (text res)])
        else (inl UnicodeEncodeError,
              t ++ [EvRequest fetcher_request; EvResponse res;
                    EvPrint (py_str_int (status_code res))])
    | Raises e => (inl e, t ++ [EvRequest fetcher_request; EvRaised e])
    end.
Proof.
  unfold query_outfit_items, mbind, Py_bind, requests_post.
  fold fetcher_request.
  destruct (server (requests_of t) fetcher_request) as [res|e]; [|reflexivity].
  rewrite print_ascii by apply is_ascii_py_str_int.
  unfold print. rewrite <- !app_assoc.
  destruct (encodes (text res)); reflexivity.
Qed.

(** C3.  The Fetcher sends one request, a POST with [variables.outfitId]
    3, whatever happens next; when the call returns a response whose text
    standard output can encode, it prints two things and nothing else: a
    line that is the decimal numeral of the status code, then the body
    text as received. *)
Theorem fetcher_one_request_two_prints (server : Server) :
  requests_of (snd (run query_outfit_items server)) = [fetcher_request] /\
  req_method fetcher_request = POST /\
  variables_outfitId fetcher_request = Some 3 /\
  forall res,
    server [] fetcher_request = Answers res ->
    encodes (text res) = true ->
    run query_outfit_items server =
      (inr tt,
       [EvRequest fetcher_request; EvResponse res;
        EvPrint (py_str_int (status_code res)); EvPrint (text res)]) /\
    printed (snd (run query_outfit_items server)) =
      [py_str_int (status_code res); text res] /\
    decimal_value (py_str_int (status_code res)) = Some (status_code res) /\
    stdout (snd (run query_outfit_items server)) =
      py_str_int (status_code res) +:+ newline +:+ text res +:+ newline.
Proof.
  unfold run. rewrite query_outfit_items_step. simpl.
  split; [|split; [reflexivity|split; [reflexivity|]]].
  - destruct (server [] fetcher_request) as [res|e]; [|reflexivity].
    destruct (encodes (text res)); reflexivity.
  - intros res -> ->. split; [reflexivity|]. split; [reflexivity|].
    split; [apply decimal_value_py_str_int|reflexivity].
Qed.

(** C5.  A 500 response whose body is the text Internal Error: the
    Fetcher prints 500, then Internal Error, and ends normally. *)
Theorem fetcher_prints_500_internal_error
    (server : Server) (parsed : option PyVal) :
  server [] fetcher_request = Answers (mkResponse 500 "Internal Error" parsed) ->
  fst (run query_outfit_items server) = inr tt /\
  exit_status (fst (run query_outfit_items server)) = 0 /\
  printed (snd (run query_outfit_items server)) = ["500"; "Internal Error"] /\
  stdout (snd (run query_outfit_items server)) =
    "500" +:+ newline +:+ "Internal Error" +:+ newline.
Proof.
  intros Hs. unfold run. rewrite query_outfit_items_step. simpl. rewrite Hs.
  cbn [text]. rewrite (encodes_ascii "Internal Error" eq_refl).
  repeat split.
Qed.

(** C10, as the code has it.  Once the call has returned a response, the
    Fetcher reads neither the status code nor the parsed body: whatever
    the status code and whether the body is JSON or not, when standard
    output can encode the body text it prints its two lines, the first
    being the decimal numeral of the status code, and ends with exit status
    0.  When standard output cannot encode the body text, the status line
    is printed, the second [print] raises [UnicodeEncodeError] and the
    script ends with a non-zero exit status. *)
Theorem fetcher_faults_only_on_unencodable_text
    (server : Server) (status : Z) (body : string) (parsed : option PyVal) :
  server [] fetcher_request = Answers (mkResponse status body parsed) ->
  (encodes body = true ->
   fst (run query_outfit_items server) = inr tt /\
   exit_status (fst (run query_outfit_items server)) = 0 /\
   printed (snd (run query_outfit_items server)) = [py_str_int status; body]) /\
  (encodes body = false ->
   fst (run query_outfit_items server) = inl UnicodeEncodeError /\
   exit_status (fst (run query_outfit_items server)) = 1 /\
   printed (snd (run query_outfit_items server)) = [py_str_int status]) /\
  decimal_value (py_str_int status) = Some status.
Proof.
  intros Hs. unfold run. rewrite query_outfit_items_step. simpl. rewrite Hs.
  cbn [text status_code].
  split; [|split; [|apply decimal_value_py_str_int]]; intros ->; repeat split.
Qed.

Lemma payload_graphql_request (query : string) (outfitId : Z) :
  graphql_request query outfitId (mkRequest POST endpoint (payload query outfitId)).
Proof.
  split; [reflexivity|]. split; [reflexivity|].
  eexists _, _. split; [reflexivity|].
  split; [|split; [reflexivity|split; [reflexivity|split; [|reflexivity]]]].
  - rewrite dom_insert_L, dom_singleton_L. reflexivity.
  - apply dom_singleton_L.
Qed.

Lemma check_items_requests (server : Server) (r : Request) :
  r ∈ requests_of (snd (run check_items server)) ->
  exists id, 1 <= id <= 9 /\ r = checker_request id.
Proof.
  destruct (check_items_shape server) as (rs & tail & -> & _ & Hr).
  rewrite requests_of_app, requests_of_blocks. intros Hin.
  apply elem_of_app in Hin as [Hin|Hin].
  - apply list_elem_of_fmap in Hin as (id & -> & Hid).
    apply elem_of_take in Hid as (i & Hi & _).
    pose proof (lookup_lt_Some _ _ _ Hi) as Hlt. rewrite range_length in Hlt.
    apply range_lookup in Hi as [-> Hi].
    exists (1 + Z.of_nat i). split; [|reflexivity].
    destruct (fst (run check_items server)); destruct Hr as [Hlen _]; lia.
  - destruct (fst (run check_items server)) as [e|u].
    + destruct Hr as [Hlen Htail].
      rewrite (fault_tail_requests _ _ _ Htail) in Hin.
      apply list_elem_of_singleton in Hin as ->.
      eexists. split; [|reflexivity]. lia.
    + destruct Hr as [_ ->]. by apply elem_of_nil in Hin.
Qed.

(** C7.  Every request of either script is a POST, and no other verb,
    to http://localhost:3000/graphql whose body has exactly the members
    [query] and [variables]: [query] is the OutfitItemsByOutfit query
    string of the script, written out below, and [variables] holds exactly
    [outfitId], an int, one of 1..9 for the Checker and 3 for the Fetcher.
    Both scripts send at least their first request. *)
Theorem every_request_is_a_graphql_post (server : Server) :
  Forall
    (fun r => exists id, 1 <= id <= 9 /\
       graphql_request
         "query OutfitItemsByOutfit($outfitId: Int!) { outfitItemsByOutfit(outfitId: $outfitId) { outfit_item_id } }"
         id r)
    (requests_of (snd (run check_items server))) /\
  Forall
    (graphql_request
       "query OutfitItemsByOutfit($outfitId: Int!) { outfitItemsByOutfit(outfitId: $outfitId) { outfit_item_id outfit_id item_id x_position y_position z_index transform item { item_id name image_url } } }"
       3)
    (requests_of (snd (run query_outfit_items server))) /\
  requests_of (snd (run check_items server)) <> [] /\
  requests_of (snd (run query_outfit_items server)) <> [].
Proof.
  split; [|split; [|split]].
  - apply Forall_forall. intros r Hr.
    apply check_items_requests in Hr as (id & Hid & ->).
    exists id. split; [exact Hid|].
    apply (payload_graphql_request checker_query).
  - unfold run. rewrite query_outfit_items_step. simpl requests_of.
    destruct (server [] fetcher_request) as [res|e];
      [destruct (encodes (text res))|]; cbn [snd app requests_of];
      (constructor; [apply (payload_graphql_request fetcher_query)|constructor]).
  - destruct (check_items_shape server) as (rs & tail & -> & _ & Hr).
    rewrite requests_of_app, requests_of_blocks. intros Hnil.
    apply (f_equal length) in Hnil.
    rewrite length_app, length_map, length_take, range_length in Hnil.
    destruct (fst (run check_items server)) as [e|u].
    + destruct Hr as [_ Htail].
      rewrite (fault_tail_requests _ _ _ Htail) in Hnil. simpl in Hnil. lia.
    + destruct Hr as [Hlen _]. simpl in Hnil. lia.
  - unfold run. rewrite query_outfit_items_step. simpl requests_of.
    destruct (server [] fetcher_request) as [res|e];
      [destruct (encodes (text res))|]; discriminate.
Qed.

Lemma blocks_no_raise (e : Exn) (ids : list Z) (rs : list (Response * Z)) :
  EvRaised e ∉ blocks ids rs.
Proof.
  revert rs; induction ids as [|id ids IH]; intros [|p rs] Hin;
    try (by apply elem_of_nil in Hin).
  rewrite blocks_cons in Hin. apply elem_of_app in Hin as [Hin|Hin].
  - unfold block in Hin.
    repeat (apply elem_of_cons in Hin as [Hin|Hin]; [discriminate|]).
    by apply elem_of_nil in Hin.
  - exact (IH _ Hin).
Qed.

(** C6.  When a call of the Checker raises, the script ends with that
    exception: the trace is the complete iterations for the ids before the
    failing one, then the request that failed, so that the lines of the
    earlier ids are the whole output and no line is printed for the failing
    id.  When the Fetcher's call raises, it ends with that exception and
    prints nothing. *)
Theorem raising_post_ends_the_script (server : Server) (e : Exn) :
  (EvRaised e ∈ snd (run check_items server) ->
   exists k rs,
     1 <= k <= 9 /\ Z.of_nat (length rs) = k - 1 /\ Forall counted rs /\
     run check_items server =
       (inl e, blocks (range 1 k) rs ++ [EvRequest (checker_request k); EvRaised e]) /\
     printed (snd (run check_items server)) = zip_with checker_line (range 1 k) rs.*2 /\
     List.filter (line_of k) (printed (snd (run check_items server))) = [] /\
     exit_status (fst (run check_items server)) = 1) /\
  (server [] fetcher_request = Raises e ->
   run query_outfit_items server = (inl e, [EvRequest fetcher_request; EvRaised e]) /\
   printed (snd (run query_outfit_items server)) = [] /\
   stdout (snd (run query_outfit_items server)) = EmptyString /\
   exit_status (fst (run query_outfit_items server)) = 1).
Proof.
  split.
  - intros Hin.
    destruct (check_items_shape server) as (rs & tail & Ht & Hrs & Hr).
    rewrite Ht in Hin. apply elem_of_app in Hin as [Hin|Hin];
      [by apply blocks_no_raise in Hin|].
    destruct (run check_items server) as [r t] eqn:Hrun. simpl in *.
    destruct r as [e'|u]; [|destruct Hr as [_ ->]; by apply elem_of_nil in Hin].
    destruct Hr as [Hlen [->|(res & -> & _)]].
    + apply elem_of_cons in Hin as [Hin|Hin]; [discriminate|].
      apply list_elem_of_singleton in Hin as [= <-].
      exists (1 + Z.of_nat (length rs)), rs.
      split; [lia|]. split; [lia|]. split; [exact Hrs|].
      split; [by rewrite Ht|].
      assert (printed t = zip_with checker_line
                (range 1 (1 + Z.of_nat (length rs))) rs.*2) as Hp.
      { rewrite Ht, printed_app, printed_blocks. simpl. apply app_nil_r. }
      split; [exact Hp|]. split; [|reflexivity].
      rewrite Hp. clear -Hlen.
      do 9 (destruct rs as [|[? ?] rs]; [reflexivity|]).
      simpl in Hlen. lia.
    + apply elem_of_cons in Hin as [Hin|Hin]; [discriminate|].
      apply list_elem_of_singleton in Hin. discriminate.
  - intros Hs. unfold run. rewrite query_outfit_items_step. simpl. rewrite Hs.
    repeat split.
Qed.

Lemma for_in_with_status (f : Z -> Z) (server : Server) (ids : list Z) :
  forall t t' : Trace,
    requests_of t = requests_of t' ->
    printed t = printed t' ->
    let r := for_in ids (check_one server) t in
    let r' := for_in ids (check_one (with_status f server)) t' in
    fst r' = fst r /\ requests_of (snd r') = requests_of (snd r) /\
    printed (snd r') = printed (snd r).
Proof.
  induction ids as [|id ids IH]; intros t t' Hreq Hpr; simpl.
  - done.
  - unfold mbind, Py_bind. rewrite !check_one_step.
    unfold with_status. rewrite <- Hreq.
    destruct (server (requests_of t) (checker_request id)) as [res|e].
    + change (response_count (mkResponse (f (status_code res)) (text res) (json_body res)))
        with (response_count res).
      destruct (response_count res) as [e|n].
      * simpl. rewrite !requests_of_app, !printed_app, Hreq, Hpr. done.
      * apply IH.
        -- rewrite !requests_of_app, Hreq. reflexivity.
        -- rewrite !printed_app, Hpr. reflexivity.
    + simpl. rewrite !requests_of_app, !printed_app, Hreq, Hpr. done.
Qed.

(** C4, as the code has it.  A call that raises and a response whose body
    is not JSON each end the loop at once with that exception, before any
    line is printed for the id, and a run that ends with an exception has a
    non-zero exit status and fewer than nine lines.  The status code is
    never read: rewriting the status codes of a server in any way changes
    neither how the run ends nor what it prints. *)
Theorem checker_fails_fast_and_ignores_status (server : Server) :
  (forall id ids t e,
     server (requests_of t) (checker_request id) = Raises e ->
     for_in (id :: ids) (check_one server) t =
       (inl e, t ++ [EvRequest (checker_request id); EvRaised e])) /\
  (forall id ids t res,
     server (requests_of t) (checker_request id) = Answers res ->
     json_body res = None ->
     for_in (id :: ids) (check_one server) t =
       (inl JSONDecodeError, t ++ [EvRequest (checker_request id); EvResponse res])) /\
  (forall e,
     fst (run check_items server) = inl e ->
     exit_status (fst (run check_items server)) <> 0 /\
     (length (printed (snd (run check_items server))) < 9)%nat) /\
  (forall f,
     fst (run check_items (with_status f server)) = fst (run check_items server) /\
     printed (snd (run check_items (with_status f server))) =
       printed (snd (run check_items server))).
Proof.
  split; [|split; [|split]].
  - intros id ids t e Hs. by apply for_in_raise.
  - intros id ids t res Hs Hj. apply for_in_fault; [exact Hs|].
    unfold response_count, res_json. rewrite Hj. reflexivity.
  - intros e He.
    destruct (check_items_shape server) as (rs & tail & Ht & _ & Hr).
    rewrite He in Hr. destruct Hr as [Hlen Htail].
    rewrite He, Ht, printed_app, printed_blocks, (fault_tail_printed _ _ _ Htail).
    split; [discriminate|].
    rewrite app_nil_r, length_zip_with, length_fmap. lia.
  - intros f.
    destruct (for_in_with_status f server (range 1 10) [] [] eq_refl eq_refl)
      as (Hfst & _ & Hpr).
    split; [exact Hfst|exact Hpr].
Qed.

Lemma EvRequest_checker_inj (a b : Z) :
  EvRequest (checker_request a) = EvRequest (checker_request b) -> a = b.
Proof. intros H. apply checker_request_inj. congruence. Qed.

(** At most one call is pending at any moment of a run. *)
Lemma checker_run_in_flight server hist ids s r :
  checker_run server hist ids s r ->
  forall pre post k, s = pre ++ post -> k <= in_flight pre k <= k + 1.
Proof.
  induction 1 as [hist|hist id ids res n s r Hs Hc _ IH|hist id ids e Hs
                 |hist id ids res e Hs Hc]; intros pre post k Heq.
  - symmetry in Heq. apply app_eq_nil in Heq as [-> _]. simpl. lia.
  - unfold block in Heq. cbn [app fst snd] in Heq.
    split_prefix Heq pre; [simpl; lia|].
    split_prefix Heq pre; [simpl; lia|].
    split_prefix Heq pre; [simpl; lia|].
    cbn [in_flight]. specialize (IH pre post (k + 1 - 1) Heq). lia.
  - split_prefix Heq pre; [simpl; lia|].
    split_prefix Heq pre; [simpl; lia|].
    symmetry in Heq. apply app_eq_nil in Heq as [-> _]. simpl. lia.
  - split_prefix Heq pre; [simpl; lia|].
    split_prefix Heq pre; [simpl; lia|].
    symmetry in Heq. apply app_eq_nil in Heq as [-> _]. simpl. lia.
Qed.

(** A request leaves either first of all, or right after the complete
    iteration of the id before it in the loop. *)
Lemma checker_run_request_position server hist ids s r :
  checker_run server hist ids s r ->
  forall pre id' post,
    s = pre ++ EvRequest (checker_request id') :: post ->
    (forall k, in_flight pre k = k) /\
    exists i : nat,
      ids !! i = Some id' /\
      (i = 0%nat /\ pre = [] \/
       exists (j : nat) idp pre' res n,
         i = S j /\ ids !! j = Some idp /\
         pre = pre' ++ block idp (res, n) /\ response_count res = inr n).
Proof.
  induction 1 as [hist|hist id ids res n s r Hs Hc _ IH|hist id ids e Hs
                 |hist id ids res e Hs Hc]; intros pre id' post Heq.
  - by destruct pre.
  - unfold block in Heq. cbn [app fst snd] in Heq.
    split_prefix Heq pre.
    { assert (id = id') as -> by (apply EvRequest_checker_inj; congruence).
      split; [done|]. exists 0%nat. split; [reflexivity|]. by left. }
    split_prefix Heq pre; [discriminate|].
    split_prefix Heq pre; [discriminate|].
    destruct (IH pre id' post Heq) as (Hfl & i & Hi & Hcase).
    split; [intros k; cbn [in_flight]; rewrite Hfl; lia|].
    exists (S i). split; [exact Hi|]. right.
    destruct Hcase as [[-> ->]|(j & idp & pre' & res' & n' & -> & Hj & -> & Hc')].
    + exists 0%nat, id, [], res, n. done.
    + exists (S j), idp,
        ([EvRequest (checker_request id); EvResponse res;
          EvPrint (checker_line id n)] ++ pre'), res', n'.
      done.
  - split_prefix Heq pre.
    { assert (id = id') as -> by (apply EvRequest_checker_inj; congruence).
      split; [done|]. exists 0%nat. split; [reflexivity|]. by left. }
    split_prefix Heq pre; [discriminate|]. by destruct pre.
  - split_prefix Heq pre.
    { assert (id = id') as -> by (apply EvRequest_checker_inj; congruence).
      split; [done|]. exists 0%nat. split; [reflexivity|]. by left. }
    split_prefix Heq pre; [discriminate|]. by destruct pre.
Qed.

(** C8.  In every run of the Checker at most one call is pending at any
    moment, and the request for id k+1 leaves only when no call is pending
    and the trace so far ends with the iteration of id k in full: its
    request, its response, which was parsed and counted, and its printed
    line.  The request for id 1 is the first event. *)
Theorem checker_requests_are_sequential (server : Server) :
  (forall pre post,
     snd (run check_items server) = pre ++ post ->
     0 <= in_flight pre 0 <= 1) /\
  (forall pre k post,
     snd (run check_items server) =
       pre ++ EvRequest (checker_request (k + 1)) :: post ->
     in_flight pre 0 = 0 /\
     (k = 0 /\ pre = [] \/
      1 <= k <= 8 /\
      exists pre' res n,
        pre = pre' ++ block k (res, n) /\ response_count res = inr n)).
Proof.
  pose proof (check_items_checker_run server) as Hcr.
  split.
  - intros pre post Heq.
    exact (checker_run_in_flight _ _ _ _ _ Hcr pre post 0 Heq).
  - intros pre k post Heq.
    destruct (checker_run_request_position _ _ _ _ _ Hcr pre (k + 1) post Heq)
      as (Hfl & i & Hi & Hcase).
    split; [apply Hfl|].
    pose proof (lookup_lt_Some _ _ _ Hi) as Hlt. rewrite range_length in Hlt.
    apply range_lookup in Hi as [Hk _].
    destruct Hcase as [[-> ->]|(j & idp & pre' & res & n & -> & Hj & -> & Hc)].
    + left. split; [lia|reflexivity].
    + right. apply range_lookup in Hj as [-> _].
      split; [lia|]. exists pre', res, n.
      replace k with (1 + Z.of_nat j) by lia. done.
Qed.

(** ** Further properties: characters of the printed text *)

Lemma pretty_N_char_not (c : Ascii.ascii) (d : N) :
  (Ascii.nat_of_ascii c < 48 \/ 57 < Ascii.nat_of_ascii c)%nat ->
  Ascii.eqb (pretty_N_char d) c = false.
Proof.
  intros Hc. apply Ascii.eqb_neq. intros <-.
  unfold pretty_N_char in Hc. repeat case_match; vm_compute in Hc; lia.
Qed.

Lemma count_char_pretty_N_go (c : Ascii.ascii) (x : N) :
  (Ascii.nat_of_ascii c < 48 \/ 57 < Ascii.nat_of_ascii c)%nat ->
  forall s, count_char c (pretty_N_go x s) = count_char c s.
Proof.
  intros Hc.
  induction x as [x IH] using (well_founded_induction N.lt_wf_0). intros s.
  destruct (decide (0 < x)%N) as [Hpos|Hzero].
  - rewrite pretty_N_go_step by exact Hpos.
    rewrite IH by (apply N.div_lt; lia).
    cbn [count_char]. rewrite pretty_N_char_not by exact Hc. reflexivity.
  - replace x with 0%N by lia. reflexivity.
Qed.

Lemma count_char_pretty_N (c : Ascii.ascii) (x : N) :
  (Ascii.nat_of_ascii c < 48 \/ 57 < Ascii.nat_of_ascii c)%nat ->
  count_char c (pretty x) = 0%nat.
Proof.
  intros Hc. unfold pretty, pretty_N. destruct (decide (x = 0%N)).
  - change (count_char c (String (pretty_N_char 0) EmptyString) = 0%nat).
    cbn [count_char]. rewrite pretty_N_char_not by exact Hc. reflexivity.
  - rewrite count_char_pretty_N_go by exact Hc. reflexivity.
Qed.

Lemma count_char_py_str_int (c : Ascii.ascii) (z : Z) :
  (Ascii.nat_of_ascii c < 45)%nat ->
  count_char c (py_str_int z) = 0%nat.
Proof.
  intros Hc. unfold py_str_int, pretty, pretty_Z.
  destruct z as [|p|p].
  - apply (count_char_pretty_N c 0). lia.
  - apply (count_char_pretty_N c (Npos p)). lia.
  - change (count_char c (String (Ascii.ascii_of_nat 45) (pretty (Npos p))) = 0%nat).
    cbn [count_char]. rewrite (count_char_pretty_N c (Npos p)) by lia.
    destruct (Ascii.eqb_spec (Ascii.ascii_of_nat 45) c) as [<-|_];
      [vm_compute in Hc; lia|reflexivity].
Qed.

Lemma count_char_app (c : Ascii.ascii) (s1 s2 : string) :
  count_char c (s1 +:+ s2) = (count_char c s1 + count_char c s2)%nat.
Proof. induction s1 as [|a s1 IH]; simpl; [reflexivity|]. rewrite IH. lia. Qed.

Lemma append_sep_inj (c : Ascii.ascii) (s1 s1' r r' : string) :
  count_char c s1 = 0%nat -> count_char c s1' = 0%nat ->
  s1 +:+ String c r = s1' +:+ String c r' ->
  s1 = s1' /\ r = r'.
Proof.
  revert s1'; induction s1 as [|a s1 IH]; intros [|a' s1'] H1 H1' Heq;
    cbn [String.append count_char] in *.
  - injection Heq as ->. done.
  - injection Heq as <- _. rewrite Ascii.eqb_refl in H1'. discriminate.
  - injection Heq as -> _. rewrite Ascii.eqb_refl in H1. discriminate.
  - injection Heq as -> Heq.
    destruct (IH s1') as [-> ->]; [lia|lia|exact Heq|]. done.
Qed.

Lemma count_char_checker_line (c : Ascii.ascii) (id n : Z) :
  (Ascii.nat_of_ascii c < 32)%nat ->
  count_char c (checker_line id n) = 0%nat.
Proof.
  intros Hc. unfold checker_line.
  rewrite !count_char_app, !count_char_py_str_int by lia.
  cbn [count_char].
  match goal with
  | |- context [Ascii.eqb ?a c] => destruct (Ascii.eqb_spec a c) as [<-|_]
  end; [vm_compute in Hc; lia|reflexivity].
Qed.

Lemma count_char_unlines (ls : list string) :
  count_char nl (unlines ls) =
    (length ls + list_sum (map (count_char nl) ls))%nat.
Proof.
  induction ls as [|s ls IH]; [reflexivity|].
  cbn [unlines]. rewrite !count_char_app, IH.
  change (count_char nl newline) with 1%nat. simpl. lia.
Qed.

(** X8.  A line of the Checker tells its id and its count: two lines are
    equal only when both numbers are. *)
Theorem checker_line_inj (id n id' n' : Z) :
  checker_line id n = checker_line id' n' -> id = id' /\ n = n'.
Proof.
  intros Heq. unfold checker_line in Heq.
  change (py_str_int id +:+ String (Ascii.ascii_of_nat 32) (py_str_int n) =
          py_str_int id' +:+ String (Ascii.ascii_of_nat 32) (py_str_int n')) in Heq.
  apply append_sep_inj in Heq as [Hid Hn];
    [|apply count_char_py_str_int; vm_compute; lia..].
  split; [exact (pretty_Z_inj _ _ Hid)|exact (pretty_Z_inj _ _ Hn)].
Qed.

Lemma check_items_printed (server : Server) :
  exists rs,
    Forall counted rs /\
    printed (snd (run check_items server)) =
      zip_with checker_line (range 1 (1 + Z.of_nat (length rs))) rs.*2.
Proof.
  destruct (check_items_shape server) as (rs & tail & -> & Hrs & Hr).
  exists rs. split; [exact Hrs|].
  rewrite printed_app, printed_blocks.
  destruct (fst (run check_items server)) as [e|u].
  - destruct Hr as [_ Htail]. rewrite (fault_tail_printed _ _ _ Htail).
    apply app_nil_r.
  - destruct Hr as [_ ->]. apply app_nil_r.
Qed.

(** X9.  No text the Checker prints holds a line feed, so its standard
    output has exactly one physical line per [print]. *)
Theorem checker_stdout_one_line_per_print (server : Server) :
  Forall (fun line => count_char nl line = 0%nat)
         (printed (snd (run check_items server))) /\
  count_char nl (stdout (snd (run check_items server))) =
    length (printed (snd (run check_items server))).
Proof.
  assert (Forall (fun line => count_char nl line = 0%nat)
            (printed (snd (run check_items server)))) as Hlines.
  { destruct (check_items_printed server) as (rs & _ & ->).
    generalize (range 1 (1 + Z.of_nat (length rs))) as ids. intros ids.
    generalize (rs.*2) as counts. clear rs.
    induction ids as [|id ids IH]; intros [|n counts]; try constructor.
    - apply count_char_checker_line. vm_compute. lia.
    - apply IH. }
  split; [exact Hlines|].
  unfold stdout. rewrite count_char_unlines.
  assert (forall ls, Forall (fun line => count_char nl line = 0%nat) ls ->
          list_sum (map (count_char nl) ls) = 0%nat) as Hsum.
  { induction 1 as [|line ls Hline _ IH]; simpl; lia. }
  rewrite (Hsum _ Hlines). lia.
Qed.

(** X10.  When the Fetcher's call returns a response whose text standard
    output can encode, the output has two line feeds more than the text: a
    body that spans several lines is printed on several lines, after the
    line of the status code.  When it cannot encode the text, the output
    is the status line alone, with its one line feed. *)
Theorem fetcher_stdout_line_count (server : Server) (res : Response) :
  server [] fetcher_request = Answers res ->
  count_char nl (stdout (snd (run query_outfit_items server))) =
    if encodes (text res) then (2 + count_char nl (text res))%nat else 1%nat.
Proof.
  intros Hs. unfold run. rewrite query_outfit_items_step. simpl requests_of.
  rewrite Hs. unfold stdout.
  destruct (encodes (text res)); rewrite count_char_unlines;
    cbn [snd app printed length map]; unfold list_sum; cbn [fold_right];
    rewrite (count_char_py_str_int nl) by (vm_compute; lia); lia.
Qed.

(** ** The length computation, case by case *)

Lemma py_len_nonneg (v : PyVal) (n : Z) : py_len v = inr n -> 0 <= n.
Proof. destruct v; simpl; intros [= <-]; lia. Qed.

Lemma py_len_sized (v : PyVal) :
  match py_len v with
  | inr _ => sized v = true
  | inl e => e = TypeError /\ sized v = false
  end.
Proof. destruct v; simpl; auto. Qed.

Lemma response_count_nonneg (res : Response) (n : Z) :
  response_count res = inr n -> 0 <= n.
Proof.
  unfold response_count, res_json, item_count.
  destruct (json_body res) as [v|]; [|discriminate].
  destruct (py_get v "data" (PDict ∅)) as [e|inner]; [discriminate|].
  destruct (py_get inner "outfitItemsByOutfit" (PList [])) as [e|items];
    [discriminate|].
  apply py_len_nonneg.
Qed.

Lemma item_count_nonneg (v : PyVal) (n : Z) : item_count v = inr n -> 0 <= n.
Proof.
  unfold item_count.
  destruct (py_get v "data" (PDict ∅)) as [e|inner]; [discriminate|].
  destruct (py_get inner "outfitItemsByOutfit" (PList [])) as [e|items];
    [discriminate|].
  apply py_len_nonneg.
Qed.

(** X1.  The length computation on a parsed body, case by case: it gives
    a count, never negative, exactly when the body is an object whose
    [data] is missing or an object and whose items are missing or a list,
    an object or a string; it raises [AttributeError] exactly when the body
    or its [data] is not an object, and [TypeError] exactly when the items
    are present and have no length. *)
Theorem item_count_outcomes (v : PyVal) :
  match item_count v with
  | inr n =>
      0 <= n /\
      exists m, v = PDict m /\
        (m !! "data" = None /\ n = 0 \/
         exists d, m !! "data" = Some (PDict d) /\
           (d !! "outfitItemsByOutfit" = None /\ n = 0 \/
            exists w, d !! "outfitItemsByOutfit" = Some w /\
                      sized w = true /\ py_len w = inr n))
  | inl AttributeError =>
      is_dict v = false \/
      exists m w, v = PDict m /\ m !! "data" = Some w /\ is_dict w = false
  | inl TypeError =>
      exists m d w, v = PDict m /\
        m !! "data" = Some (PDict d) /\
        d !! "outfitItemsByOutfit" = Some w /\ sized w = false
  | inl _ => False
  end.
Proof.
  pose proof (item_count_nonneg v) as Hnonneg.
  assert (is_dict v = false -> item_count v = inl AttributeError) as Hv
    by apply item_count_not_object.
  destruct v as [| | | | |l|m]; try (rewrite Hv by reflexivity; by left).
  clear Hv. unfold item_count in *. cbn [py_get] in *.
  destruct (m !! "data") as [w|] eqn:Hw; cbn [from_option id] in *.
  - assert (is_dict w = false ->
            py_get w "outfitItemsByOutfit" (PList []) = inl AttributeError) as Hd
      by (destruct w; simpl; (reflexivity || discriminate)).
    destruct w as [| | | | |l|d];
      try (rewrite Hd by reflexivity; right; eexists m, _; done).
    clear Hd. cbn [py_get] in *.
    destruct (d !! "outfitItemsByOutfit") as [items|] eqn:Hitems;
      cbn [from_option id] in *.
    + pose proof (py_len_sized items) as Hlen.
      destruct (py_len items) as [e|n] eqn:Hn.
      * destruct Hlen as [-> Hsz]. exists m, d, items. done.
      * split; [by apply Hnonneg|]. exists m. split; [reflexivity|].
        right. exists d. split; [exact Hw|]. right. exists items. done.
    + cbn [py_len length Z.of_nat]. split; [lia|]. exists m. split; [reflexivity|].
      right. exists d. split; [exact Hw|]. by left.
  - cbn [py_get]. rewrite lookup_empty. cbn [from_option id py_len length Z.of_nat].
    split; [lia|]. exists m. split; [reflexivity|]. by left.
Qed.

Lemma py_str_len_ascii (s : string) :
  is_ascii s = true -> py_str_len s = String.length s.
Proof.
  induction s as [|c s IH]; [reflexivity|]. cbn [is_ascii py_str_len String.length].
  intros [Hc Hs]%andb_prop. rewrite (IH Hs).
  unfold is_ascii_char in Hc. unfold is_continuation.
  apply Nat.ltb_lt in Hc.
  destruct (Nat.leb_spec 128 (Ascii.nat_of_ascii c)); [lia|reflexivity].
Qed.

(** X2.  The items are not checked to be a list: a JSON object at
    [data.outfitItemsByOutfit] is counted by its members and a string by
    its code points, which for ASCII text is its length, and the line is
    printed with that count. *)
Theorem checker_counts_any_sized_value
    (server : Server) (id : Z) (t : Trace) (res : Response)
    (m d : gmap string PyVal) :
  server (requests_of t) (checker_request id) = Answers res ->
  json_body res = Some (PDict m) ->
  m !! "data" = Some (PDict d) ->
  (forall o, d !! "outfitItemsByOutfit" = Some (PDict o) ->
     check_one server id t = (inr tt, t ++ block id (res, Z.of_nat (size o)))) /\
  (forall s, d !! "outfitItemsByOutfit" = Some (PStr s) ->
     check_one server id t =
       (inr tt, t ++ block id (res, Z.of_nat (py_str_len s))) /\
     (is_ascii s = true -> py_str_len s = String.length s)).
Proof.
  intros Hs Hj Hm.
  assert (forall w n, d !! "outfitItemsByOutfit" = Some w -> py_len w = inr n ->
          check_one server id t = (inr tt, t ++ block id (res, n))) as Hgo.
  { intros w n Hw Hn. apply check_one_counted; [exact Hs|].
    unfold response_count, res_json, item_count. rewrite Hj.
    cbn [py_get]. rewrite Hm. cbn [from_option Datatypes.id py_get]. rewrite Hw.
    exact Hn. }
  split.
  - intros o Ho. exact (Hgo _ _ Ho eq_refl).
  - intros s Hstr. split; [exact (Hgo _ _ Hstr eq_refl)|apply py_str_len_ascii].
Qed.

(** X4.  Only the two keys on the path and the number of items matter: a
    member of the response other than [data], a member of [data] other
    than [outfitItemsByOutfit], and what the items are, leave the count as
    it is.  An [errors] member is never looked at. *)
Theorem count_ignores_other_members
    (m d : gmap string PyVal) (k : string) (v : PyVal) :
  (k <> "data" -> item_count (PDict (<[k := v]> m)) = item_count (PDict m)) /\
  (k <> "outfitItemsByOutfit" ->
   item_count (PDict (<["data" := PDict (<[k := v]> d)]> m)) =
   item_count (PDict (<["data" := PDict d]> m))) /\
  (forall l l' : list PyVal,
     length l = length l' ->
     item_count (PDict (<["data" := PDict (<["outfitItemsByOutfit" := PList l]> d)]> m)) =
     item_count (PDict (<["data" := PDict (<["outfitItemsByOutfit" := PList l']> d)]> m))).
Proof.
  unfold item_count. cbn [py_get]. split; [|split].
  - intros Hk. rewrite lookup_insert_ne by exact Hk. reflexivity.
  - intros Hk. rewrite !lookup_insert_eq. cbn [from_option id py_get].
    rewrite lookup_insert_ne by exact Hk. reflexivity.
  - intros l l' Hlen. rewrite !lookup_insert_eq. cbn [from_option id py_get].
    rewrite !lookup_insert_eq. cbn [from_option id py_len]. rewrite Hlen. reflexivity.
Qed.

(** ** Requests, lines and the exit status *)

Lemma Forall_counted_nonneg (rs : list (Response * Z)) :
  Forall counted rs -> Forall (fun n => 0 <= n) rs.*2.
Proof.
  induction 1 as [|p rs Hp _ IH]; simpl; constructor; [|exact IH].
  apply (response_count_nonneg p.1). exact Hp.
Qed.

Lemma fault_tail_in_flight (id : Z) (e : Exn) (tail : Trace) (k : Z) :
  fault_tail id e tail -> in_flight tail k = k.
Proof. intros [->|(res & -> & _)]; simpl; lia. Qed.

(** X3.  In every run of the Checker the counts printed are never
    negative; there is one line per request, but for the last request of a
    run that ends with an exception; the exit status is 0 exactly when nine
    lines were printed; and no call is pending when the script ends. *)
Theorem checker_run_accounting (server : Server) :
  (exists counts,
     Forall (fun n => 0 <= n) counts /\
     length counts = length (printed (snd (run check_items server))) /\
     printed (snd (run check_items server)) =
       zip_with checker_line (range 1 10) counts) /\
  length (requests_of (snd (run check_items server))) =
    (length (printed (snd (run check_items server))) +
     match fst (run check_items server) with
     | inl _ => 1
     | inr _ => 0
     end)%nat /\
  exit_status (fst (run check_items server)) =
    (if (length (printed (snd (run check_items server))) =? 9)%nat then 0 else 1) /\
  in_flight (snd (run check_items server)) 0 = 0.
Proof.
  pose proof (check_items_checker_run server) as Hcr.
  apply checker_run_shape in Hcr as (rs & tail & Ht & Hrs & Hr).
  assert (length rs <= 9 /\
          match fst (run check_items server) with
          | inl _ => length rs < 9
          | inr _ => length rs = 9
          end)%nat as [Hle Hlen].
  { destruct (fst (run check_items server)) as [e|u].
    - destruct Hr as (id & Hid & _). apply lookup_lt_Some in Hid.
      rewrite range_length in Hid. lia.
    - destruct Hr as [-> _]. rewrite range_length. lia. }
  assert (printed (snd (run check_items server)) =
            zip_with checker_line (range 1 10) rs.*2) as Hp.
  { rewrite Ht, printed_app, printed_blocks.
    destruct (fst (run check_items server)) as [e|u].
    - destruct Hr as (id & _ & Htail).
      rewrite (fault_tail_printed _ _ _ Htail). apply app_nil_r.
    - destruct Hr as [_ ->]. apply app_nil_r. }
  assert (length (printed (snd (run check_items server))) = length rs) as Hn.
  { rewrite Hp, length_zip_with, length_fmap, range_length. lia. }
  split; [|split; [|split]].
  - exists rs.*2. split; [by apply Forall_counted_nonneg|].
    split; [by rewrite Hn, length_fmap|exact Hp].
  - rewrite Hn, Ht, requests_of_app, requests_of_blocks, length_app, length_map,
      length_take, range_length.
    destruct (fst (run check_items server)) as [e|u].
    + destruct Hr as (id & _ & Htail).
      rewrite (fault_tail_requests _ _ _ Htail). simpl. lia.
    + destruct Hr as [_ ->]. simpl. lia.
  - rewrite Hn. destruct (fst (run check_items server)) as [e|u]; simpl.
    + destruct (Nat.eqb_spec (length rs) 9); [lia|reflexivity].
    + rewrite Hlen. reflexivity.
  - rewrite Ht, in_flight_app, in_flight_blocks.
    destruct (fst (run check_items server)) as [e|u].
    + destruct Hr as (id & _ & Htail). by apply (fault_tail_in_flight id e).
    + destruct Hr as [_ ->]. reflexivity.
Qed.

(** X7.  The Checker never sends the same request twice. *)
Theorem checker_requests_distinct (server : Server) :
  NoDup (requests_of (snd (run check_items server))).
Proof.
  assert (exists n, requests_of (snd (run check_items server)) =
                      checker_request <$> take n (range 1 10)) as [n ->].
  { pose proof (check_items_checker_run server) as Hcr.
    apply checker_run_shape in Hcr as (rs & tail & Ht & _ & Hr).
    rewrite Ht, requests_of_app, requests_of_blocks.
    destruct (fst (run check_items server)) as [e|u].
    - destruct Hr as (id & Hid & Htail).
      rewrite (fault_tail_requests _ _ _ Htail).
      exists (S (length rs)). rewrite (take_S_r _ _ _ Hid), fmap_app. reflexivity.
    - destruct Hr as [_ ->]. exists (length rs). apply app_nil_r. }
  apply NoDup_fmap_2_strong.
  - intros a b _ _. apply checker_request_inj.
  - apply (sublist_NoDup _ (range 1 10)); [|apply sublist_take].
    unfold range. apply NoDup_fmap_2; [|apply NoDup_seq].
    intros i j Hij. lia.
Qed.

(** ** The run as a function of the server's nine replies *)

Lemma range_cons (a b : Z) : a < b -> range a b = a :: range (a + 1) b.
Proof.
  intros Hlt. unfold range.
  replace (Z.to_nat (b - a)) with (S (Z.to_nat (b - (a + 1)))) by lia.
  cbn [seq map]. f_equal; [lia|].
  rewrite <- fmap_S_seq.
  change (map ?f (S <$> ?l)) with (f <$> (S <$> l)).
  rewrite <- list_fmap_compose. apply list_fmap_ext. intros _ i _. simpl. lia.
Qed.

Lemma range_snoc (a b : Z) : a <= b -> range a (b + 1) = range a b ++ [b].
Proof.
  intros Hle. unfold range.
  replace (Z.to_nat (b + 1 - a)) with (S (Z.to_nat (b - a))) by lia.
  rewrite seq_S, map_app. simpl. f_equal. f_equal. lia.
Qed.

Lemma for_in_expected (server : Server) (n : nat) :
  forall (a : Z) (t : Trace),
    1 <= a ->
    requests_of t = map checker_request (range 1 a) ->
    for_in (range a (a + Z.of_nat n)) (check_one server) t =
      (expected_result server (range a (a + Z.of_nat n)),
       t ++ expected_trace server (range a (a + Z.of_nat n))).
Proof.
  induction n as [|n IH]; intros a t Ha Hreq.
  - replace (a + Z.of_nat 0) with a by lia.
    unfold range. rewrite Z.sub_diag. simpl. rewrite app_nil_r. reflexivity.
  - rewrite range_cons by lia.
    cbn [for_in expected_result expected_trace]. unfold mbind, Py_bind.
    rewrite check_one_step, Hreq. unfold reply_count. fold (reply server a).
    destruct (reply server a) as [res|e]; [|reflexivity].
    destruct (response_count res) as [e|c]; [reflexivity|].
    replace (a + Z.of_nat (S n)) with ((a + 1) + Z.of_nat n) by lia.
    rewrite IH, <- app_assoc; [reflexivity|lia|].
    rewrite requests_of_app, Hreq, range_snoc, map_app by lia. reflexivity.
Qed.

Lemma printed_expected_trace (server : Server) (ids : list Z) :
  printed (expected_trace server ids) = expected_lines server ids.
Proof.
  induction ids as [|k ids IH]; [reflexivity|].
  cbn [expected_trace expected_lines]. unfold reply_count.
  destruct (reply server k) as [res|e]; [|reflexivity].
  destruct (response_count res) as [e|c]; [reflexivity|].
  rewrite printed_app, IH. reflexivity.
Qed.

(** X5.  The run of the Checker is the function of the server's replies
    to nine calls that [expected_result], [expected_trace] and
    [expected_lines] compute: the call for id k is made with exactly the
    requests for 1..k-1 before it, the run ends with the first exception
    among the iterations, and the lines are those of the ids before it. *)
Theorem check_items_closed_form (server : Server) :
  run check_items server =
    (expected_result server (range 1 10), expected_trace server (range 1 10)) /\
  printed (snd (run check_items server)) = expected_lines server (range 1 10).
Proof.
  assert (run check_items server =
            (expected_result server (range 1 10),
             expected_trace server (range 1 10))) as Hrun.
  { unfold run, check_items.
    exact (for_in_expected server 9 1 [] ltac:(lia) eq_refl). }
  split; [exact Hrun|]. rewrite Hrun. apply printed_expected_trace.
Qed.

Lemma expected_ext (server server' : Server) (ids : list Z) :
  (forall k, k ∈ ids -> reply server k = reply server' k) ->
  expected_result server ids = expected_result server' ids /\
  expected_trace server ids = expected_trace server' ids.
Proof.
  induction ids as [|k ids IH]; intros Hrep; [done|].
  cbn [expected_result expected_trace]. unfold reply_count.
  rewrite <- (Hrep k) by apply list_elem_of_here.
  destruct IH as [-> ->];
    [intros j Hj; apply Hrep; by apply list_elem_of_further|].
  done.
Qed.

Lemma expected_count_ext (server server' : Server) (ids : list Z) :
  (forall k, k ∈ ids -> reply_count server k = reply_count server' k) ->
  expected_result server ids = expected_result server' ids /\
  expected_lines server ids = expected_lines server' ids.
Proof.
  induction ids as [|k ids IH]; intros Hrep; [done|].
  cbn [expected_result expected_lines].
  rewrite <- (Hrep k) by apply list_elem_of_here.
  destruct IH as [-> ->];
    [intros j Hj; apply Hrep; by apply list_elem_of_further|].
  done.
Qed.

Lemma elem_of_range_1_10 (k : Z) : k ∈ range 1 10 -> 1 <= k <= 9.
Proof.
  intros Hk. apply list_elem_of_lookup in Hk as [i Hi].
  apply range_lookup in Hi. lia.
Qed.

(** X6.  Each script depends on the server through its own calls only:
    two servers that reply alike to the Checker's nine calls give the same
    run of the Checker, and two servers that reply alike to the Fetcher's
    single call give the same run of the Fetcher. *)
Theorem scripts_depend_on_their_calls_only (server server' : Server) :
  ((forall k, 1 <= k <= 9 -> reply server k = reply server' k) ->
   run check_items server = run check_items server') /\
  (server [] fetcher_request = server' [] fetcher_request ->
   run query_outfit_items server = run query_outfit_items server').
Proof.
  split.
  - intros Hrep. unfold run, check_items.
    change (range 1 10) with (range 1 (1 + Z.of_nat 9)).
    rewrite (for_in_expected server 9 1 [] ltac:(lia) eq_refl).
    rewrite (for_in_expected server' 9 1 [] ltac:(lia) eq_refl).
    destruct (expected_ext server server' (range 1 (1 + Z.of_nat 9))) as [-> ->];
      [|reflexivity].
    intros k Hk. apply Hrep, elem_of_range_1_10, Hk.
  - intros Hs. unfold run. rewrite !query_outfit_items_step. simpl requests_of.
    rewrite Hs. reflexivity.
Qed.

(** ** What each script reads of a response *)

Lemma same_parsed_body_count (server server' : Server) (k : Z) :
  same_parsed_body (reply server k) (reply server' k) ->
  reply_count server k = reply_count server' k.
Proof.
  unfold reply_count, same_parsed_body.
  destruct (reply server k) as [a|e], (reply server' k) as [b|e']; try done.
  - unfold response_count, res_json. intros ->. reflexivity.
  - intros ->. reflexivity.
Qed.

(** X11.  The Checker reads nothing of a response but its parsed body:
    two servers whose replies to the nine calls raise the same exception or
    carry the same parsed body, whatever their status codes and texts, give
    runs that end alike and print the same lines. *)
Theorem checker_reads_only_the_parsed_body (server server' : Server) :
  (forall k, 1 <= k <= 9 -> same_parsed_body (reply server k) (reply server' k)) ->
  fst (run check_items server') = fst (run check_items server) /\
  printed (snd (run check_items server')) = printed (snd (run check_items server)).
Proof.
  intros Hsame. unfold run, check_items.
  change (range 1 10) with (range 1 (1 + Z.of_nat 9)).
  rewrite (for_in_expected server 9 1 [] ltac:(lia) eq_refl).
  rewrite (for_in_expected server' 9 1 [] ltac:(lia) eq_refl).
  cbn [fst snd app]. rewrite !printed_expected_trace.
  destruct (expected_count_ext server server' (range 1 (1 + Z.of_nat 9)))
    as [-> ->]; [|done].
  intros k Hk. apply same_parsed_body_count, Hsame, elem_of_range_1_10, Hk.
Qed.

(** X12.  The Fetcher reads nothing of a response but its status code and
    its text: two servers whose replies to its call raise the same
    exception or agree on these two give runs that end alike and print the
    same, whether the bodies parse or not. *)
Theorem fetcher_reads_only_status_and_text (server server' : Server) :
  same_status_and_text (server [] fetcher_request) (server' [] fetcher_request) ->
  fst (run query_outfit_items server') = fst (run query_outfit_items server) /\
  printed (snd (run query_outfit_items server')) =
    printed (snd (run query_outfit_items server)) /\
  stdout (snd (run query_outfit_items server')) =
    stdout (snd (run query_outfit_items server)).
Proof.
  unfold run, stdout. rewrite !query_outfit_items_step. simpl requests_of.
  unfold same_status_and_text.
  destruct (server [] fetcher_request) as [a|e],
           (server' [] fetcher_request) as [b|e']; try done.
  - intros [Hst Htx]. rewrite Hst, Htx. destruct (encodes (text b)); done.
  - intros ->. done.
Qed.

(** ** Where an exception comes from *)




End Properties.

(** * The statements on sample runs *)

#[local] Existing Instance utf8_stdout.

(** C2, as the claim has it, fails: in the object with a null [data] the
    path [data.outfitItemsByOutfit] is absent, and the Checker raises
    [AttributeError] on the second [get] instead of printing [5 0]. *)
Lemma absent_path_under_null_data_faults :
  path_lookup items_path (PDict {[ "data" := PNone ]}) = None /\
  json_body null_data = Some (PDict {[ "data" := PNone ]}) /\
  check_one (constant_server (Answers null_data)) 5 [] =
    (inl AttributeError, [EvRequest (checker_request 5); EvResponse null_data]) /\
  printed (snd (check_one (constant_server (Answers null_data)) 5 [])) = [] /\
  fst (run check_items (constant_server (Answers null_data))) = inl AttributeError /\
  printed (snd (run check_items (constant_server (Answers null_data)))) = [].
Proof. repeat split; vm_compute; reflexivity. Qed.

(** C4, as the claim has it, fails: against a server that answers every
    call with status 500 and the JSON body of an empty [data] object, the
    Checker prints all nine lines and ends normally. *)
Lemma non_200_status_is_no_fault :
  status_code error_500_with_json = 500 /\
  fst (run check_items (constant_server (Answers error_500_with_json))) = inr tt /\
  exit_status (fst (run check_items (constant_server (Answers error_500_with_json)))) = 0 /\
  printed (snd (run check_items (constant_server (Answers error_500_with_json)))) =
    ["1 0"; "2 0"; "3 0"; "4 0"; "5 0"; "6 0"; "7 0"; "8 0"; "9 0"].
Proof. repeat split; vm_compute; reflexivity. Qed.

(** Against a server that always answers with the two items, the run is
    normal and id 4 has its one request and its one line. *)
Lemma checker_one_request_one_line_per_id_witness :
  fst (run check_items (constant_server (Answers scenario_A))) = inr tt /\
  1 <= 4 <= 9 /\
  length (filter (fun r => variables_outfitId r = Some 4)
            (requests_of (snd (run check_items (constant_server (Answers scenario_A))))))
    = 1%nat /\
  length (List.filter (line_of 4)
            (printed (snd (run check_items (constant_server (Answers scenario_A))))))
    = 1%nat.
Proof.
  assert (fst (run check_items (constant_server (Answers scenario_A))) = inr tt)
    as Hrun by (vm_compute; reflexivity).
  assert (1 <= 4 <= 9) as Hid by lia.
  split; [exact Hrun|]. split; [exact Hid|].
  destruct (checker_one_request_one_line_per_id (constant_server (Answers scenario_A)))
    as (_ & _ & Hnormal).
  destruct (Hnormal Hrun) as (rs & _ & _ & _ & _ & _ & _ & Hper).
  exact (Hper 4 Hid).
Defined.

(** Scenario A at id 3: the list at the path has two elements. *)
Lemma checker_count_of_object_response_witness :
  constant_server (Answers scenario_A) (requests_of []) (checker_request 3)
    = Answers scenario_A /\
  check_one (constant_server (Answers scenario_A)) 3 [] =
    (inr tt, [] ++ block 3 (scenario_A, 2)) /\
  printed (snd (check_one (constant_server (Answers scenario_A)) 3 [])) = [] ++ ["3 2"] /\
  check_one (constant_server (Answers null_data)) 5 [] =
    (inl AttributeError, [] ++ [EvRequest (checker_request 5); EvResponse null_data]).
Proof.
  destruct (checker_count_of_object_response (constant_server (Answers scenario_A)) [])
    as (Hobj & _ & HA & _).
  destruct (checker_count_of_object_response (constant_server (Answers null_data)) [])
    as (_ & Hbad & _ & _).
  split; [reflexivity|]. split; [|split].
  - refine (proj1 (Hobj 3 scenario_A _ eq_refl eq_refl _)
              [PDict {[ "outfit_item_id" := PInt 1 ]};
               PDict {[ "outfit_item_id" := PInt 2 ]}] _).
    + right. eexists. vm_compute. reflexivity.
    + vm_compute. reflexivity.
  - exact (HA eq_refl).
  - refine (Hbad 5 null_data _ eq_refl eq_refl _).
    right. exists {[ "data" := PNone ]}, PNone.
    split; [reflexivity|]. split; [vm_compute; reflexivity|reflexivity].
Defined.

(** The Fetcher against a server that answers with scenario C. *)
Lemma fetcher_one_request_two_prints_witness :
  constant_server (Answers scenario_C) [] fetcher_request = Answers scenario_C /\
  encodes (text scenario_C) = true /\
  printed (snd (run query_outfit_items (constant_server (Answers scenario_C)))) =
    ["500"; "Internal Error"] /\
  decimal_value "500" = Some 500.
Proof.
  destruct (fetcher_one_request_two_prints (constant_server (Answers scenario_C)))
    as (_ & _ & _ & Hres).
  destruct (Hres scenario_C eq_refl eq_refl) as (_ & Hp & Hd & _).
  split; [reflexivity|]. split; [reflexivity|]. split; [exact Hp|exact Hd].
Defined.

(** The Checker against a server that refuses every call, and against one
    whose bodies are not JSON. *)
Lemma checker_fails_fast_and_ignores_status_witness :
  constant_server (Raises ConnectionError) (requests_of []) (checker_request 1)
    = Raises ConnectionError /\
  for_in (1 :: range 2 10) (check_one (constant_server (Raises ConnectionError))) [] =
    (inl ConnectionError, [] ++ [EvRequest (checker_request 1); EvRaised ConnectionError]) /\
  json_body scenario_C = None /\
  for_in (1 :: range 2 10) (check_one (constant_server (Answers scenario_C))) [] =
    (inl JSONDecodeError, [] ++ [EvRequest (checker_request 1); EvResponse scenario_C]) /\
  fst (run check_items (constant_server (Answers scenario_C))) = inl JSONDecodeError /\
  exit_status (fst (run check_items (constant_server (Answers scenario_C)))) <> 0.
Proof.
  destruct (checker_fails_fast_and_ignores_status (constant_server (Raises ConnectionError)))
    as (Hraise & _).
  destruct (checker_fails_fast_and_ignores_status (constant_server (Answers scenario_C)))
    as (_ & Hbody & Hexit & _).
  assert (fst (run check_items (constant_server (Answers scenario_C))) = inl JSONDecodeError)
    as Hrun by (vm_compute; reflexivity).
  split; [reflexivity|]. split; [exact (Hraise 1 (range 2 10) [] _ eq_refl)|].
  split; [reflexivity|]. split; [exact (Hbody 1 (range 2 10) [] _ eq_refl eq_refl)|].
  split; [exact Hrun|]. exact (proj1 (Hexit _ Hrun)).
Defined.

(** Scenario C. *)
Lemma fetcher_prints_500_internal_error_witness :
  constant_server (Answers scenario_C) [] fetcher_request =
    Answers (mkResponse 500 "Internal Error" None) /\
  printed (snd (run query_outfit_items (constant_server (Answers scenario_C)))) =
    ["500"; "Internal Error"].
Proof.
  split; [reflexivity|].
  exact (proj1 (proj2 (proj2
    (fetcher_prints_500_internal_error (constant_server (Answers scenario_C)) None
       eq_refl)))).
Defined.

(** Scenario D: the server is unreachable from the third call on for the
    Checker, and at once for the Fetcher. *)
Lemma raising_post_ends_the_script_witness :
  EvRaised ConnectionError ∈
    snd (run check_items (failing_after 2 scenario_A ConnectionError)) /\
  exit_status (fst (run check_items (failing_after 2 scenario_A ConnectionError))) = 1 /\
  constant_server (Raises ConnectionError) [] fetcher_request = Raises ConnectionError /\
  stdout (snd (run query_outfit_items (constant_server (Raises ConnectionError))))
    = EmptyString.
Proof.
  assert (EvRaised ConnectionError ∈
            snd (run check_items (failing_after 2 scenario_A ConnectionError))) as Hin.
  { vm_compute. do 7 apply list_elem_of_further. apply list_elem_of_here. }
  split; [exact Hin|]. split.
  - destruct (proj1 (raising_post_ends_the_script
                       (failing_after 2 scenario_A ConnectionError) ConnectionError) Hin)
      as (k & rs & _ & _ & _ & _ & _ & _ & Hexit).
    exact Hexit.
  - split; [reflexivity|].
    exact (proj1 (proj2 (proj2 (proj2 (raising_post_ends_the_script
             (constant_server (Raises ConnectionError)) ConnectionError) eq_refl)))).
Defined.

(** The request for id 2 in a normal run: what precedes it is the
    iteration of id 1. *)
Lemma checker_requests_are_sequential_witness :
  snd (run check_items (constant_server (Answers scenario_A))) =
    block 1 (scenario_A, 2) ++
    EvRequest (checker_request (1 + 1)) ::
      ([EvResponse scenario_A; EvPrint "2 2"] ++
       blocks (range 3 10) (replicate 7 (scenario_A, 2))) /\
  in_flight (block 1 (scenario_A, 2)) 0 = 0 /\
  0 <= in_flight (block 1 (scenario_A, 2) ++ [EvRequest (checker_request 2)]) 0 <= 1.
Proof.
  assert (snd (run check_items (constant_server (Answers scenario_A))) =
            block 1 (scenario_A, 2) ++
            EvRequest (checker_request (1 + 1)) ::
              ([EvResponse scenario_A; EvPrint "2 2"] ++
               blocks (range 3 10) (replicate 7 (scenario_A, 2)))) as Hsplit
    by (vm_compute; reflexivity).
  assert (snd (run check_items (constant_server (Answers scenario_A))) =
            (block 1 (scenario_A, 2) ++ [EvRequest (checker_request 2)]) ++
              ([EvResponse scenario_A; EvPrint "2 2"] ++
               blocks (range 3 10) (replicate 7 (scenario_A, 2)))) as Hsplit'
    by (vm_compute; reflexivity).
  destruct (checker_requests_are_sequential (constant_server (Answers scenario_A)))
    as (Hpending & Horder).
  split; [exact Hsplit|]. split.
  - exact (proj1 (Horder _ 1 _ Hsplit)).
  - exact (Hpending _ _ Hsplit').
Defined.

(** A null items list at the first id. *)
Lemma checker_null_items_type_error_witness :
  constant_server (Answers null_items) (requests_of []) (checker_request 1)
    = Answers null_items /\
  json_body null_items =
    Some (PDict {[ "data" := PDict {[ "outfitItemsByOutfit" := PNone ]} ]}) /\
  ({[ "data" := PDict {[ "outfitItemsByOutfit" := PNone ]} ]} : gmap string PyVal)
    !! "data" = Some (PDict {[ "outfitItemsByOutfit" := PNone ]}) /\
  ({[ "outfitItemsByOutfit" := PNone ]} : gmap string PyVal)
    !! "outfitItemsByOutfit" = Some PNone /\
  for_in (1 :: range 2 10) (check_one (constant_server (Answers null_items))) [] =
    (inl TypeError, [] ++ [EvRequest (checker_request 1); EvResponse null_items]).
Proof.
  assert (({[ "data" := PDict {[ "outfitItemsByOutfit" := PNone ]} ]}
             : gmap string PyVal) !! "data"
          = Some (PDict {[ "outfitItemsByOutfit" := PNone ]})) as Hdata
    by (vm_compute; reflexivity).
  assert (({[ "outfitItemsByOutfit" := PNone ]} : gmap string PyVal)
            !! "outfitItemsByOutfit" = Some PNone) as Hitems
    by (vm_compute; reflexivity).
  split; [reflexivity|]. split; [reflexivity|].
  split; [exact Hdata|]. split; [exact Hitems|].
  exact (proj1 (proj2
    (checker_null_items_type_error (constant_server (Answers null_items))
       1 (range 2 10) [] null_items _ _ eq_refl eq_refl Hdata Hitems))).
Defined.

(** C10, as the claim has it, fails: on a standard output that writes
    ASCII only, a response whose body is the euro sign makes the Fetcher
    print the status line and then raise [UnicodeEncodeError]. *)
Lemma fetcher_faults_on_unencodable_text :
  run (query_outfit_items (out := ascii_stdout)) (constant_server (Answers euro_body)) =
    (inl UnicodeEncodeError,
     [EvRequest fetcher_request; EvResponse euro_body; EvPrint "200"]) /\
  exit_status
    (fst (run (query_outfit_items (out := ascii_stdout))
            (constant_server (Answers euro_body)))) = 1 /\
  printed
    (snd (run (query_outfit_items (out := ascii_stdout))
            (constant_server (Answers euro_body)))) = ["200"].
Proof. repeat split; vm_compute; reflexivity. Qed.

(** A 404 with an empty body that is not JSON, and the euro sign on a
    standard output that writes ASCII only. *)
Lemma fetcher_faults_only_on_unencodable_text_witness :
  constant_server (Answers (mkResponse 404 EmptyString None)) [] fetcher_request =
    Answers (mkResponse 404 EmptyString None) /\
  encodes EmptyString = true /\
  exit_status
    (fst (run query_outfit_items
            (constant_server (Answers (mkResponse 404 EmptyString None))))) = 0 /\
  printed
    (snd (run query_outfit_items
            (constant_server (Answers (mkResponse 404 EmptyString None)))))
    = ["404"; EmptyString] /\
  encodes (Stdout := ascii_stdout) euro = false /\
  fst (run (query_outfit_items (out := ascii_stdout))
         (constant_server (Answers (mkResponse 200 euro None)))) =
    inl UnicodeEncodeError.
Proof.
  split; [reflexivity|]. split; [reflexivity|].
  destruct (proj1 (fetcher_faults_only_on_unencodable_text
                     (out := utf8_stdout)
                     (constant_server (Answers (mkResponse 404 EmptyString None)))
                     404 EmptyString None eq_refl) eq_refl) as (_ & Hexit & Hp).
  split; [exact Hexit|]. split; [exact Hp|]. split; [reflexivity|].
  exact (proj1 (proj1 (proj2 (fetcher_faults_only_on_unencodable_text
                  (out := ascii_stdout)
                  (constant_server (Answers (mkResponse 200 euro None)))
                  200 euro None eq_refl)) eq_refl)).
Defined.

(** The nine requests of a normal run, and the Fetcher's one. *)
Lemma every_request_is_a_graphql_post_witness :
  length (requests_of (snd (run check_items (constant_server (Answers scenario_A)))))
    = 9%nat /\
  Forall
    (fun r => exists id, 1 <= id <= 9 /\
       graphql_request
         "query OutfitItemsByOutfit($outfitId: Int!) { outfitItemsByOutfit(outfitId: $outfitId) { outfit_item_id } }"
         id r)
    (requests_of (snd (run check_items (constant_server (Answers scenario_A))))) /\
  Forall
    (graphql_request
       "query OutfitItemsByOutfit($outfitId: Int!) { outfitItemsByOutfit(outfitId: $outfitId) { outfit_item_id outfit_id item_id x_position y_position z_index transform item { item_id name image_url } } }"
       3)
    (requests_of
       (snd (run query_outfit_items (constant_server (Raises ConnectionError))))).
Proof.
  split; [vm_compute; reflexivity|]. split.
  - exact (proj1 (every_request_is_a_graphql_post
                    (constant_server (Answers scenario_A)))).
  - exact (proj1 (proj2 (every_request_is_a_graphql_post
                           (constant_server (Raises ConnectionError))))).
Defined.

Lemma checker_line_inj_witness :
  checker_line 3 2 = checker_line 3 2 /\ (3 = 3 /\ 2 = 2).
Proof.
  split; [reflexivity|]. exact (checker_line_inj 3 2 3 2 eq_refl).
Defined.

Lemma fetcher_stdout_line_count_witness :
  constant_server (Answers (mkResponse 200 ("a" +:+ newline +:+ "b") None))
    [] fetcher_request
    = Answers (mkResponse 200 ("a" +:+ newline +:+ "b") None) /\
  count_char nl
    (stdout (snd (run query_outfit_items
       (constant_server (Answers (mkResponse 200 ("a" +:+ newline +:+ "b") None))))))
    = 3%nat /\
  count_char nl
    (stdout (snd (run (query_outfit_items (out := ascii_stdout))
       (constant_server (Answers euro_body)))))
    = 1%nat.
Proof.
  split; [reflexivity|]. split.
  - exact (fetcher_stdout_line_count
             (constant_server (Answers (mkResponse 200 ("a" +:+ newline +:+ "b") None)))
             (mkResponse 200 ("a" +:+ newline +:+ "b") None) eq_refl).
  - exact (fetcher_stdout_line_count (out := ascii_stdout)
             (constant_server (Answers euro_body)) euro_body eq_refl).
Defined.

Lemma checker_counts_any_sized_value_witness :
  constant_server (Answers object_items) (requests_of []) (checker_request 7)
    = Answers object_items /\
  check_one (constant_server (Answers object_items)) 7 [] =
    (inr tt, [] ++ block 7 (object_items, 1)) /\
  check_one (constant_server (Answers euro_items)) 7 [] =
    (inr tt, [] ++ block 7 (euro_items, 1)) /\
  printed (snd (check_one (constant_server (Answers euro_items)) 7 [])) = ["7 1"].
Proof.
  split; [reflexivity|]. split; [|split].
  - refine (proj1 (checker_counts_any_sized_value
                     (constant_server (Answers object_items)) 7 [] object_items
                     _ _ eq_refl eq_refl _) {[ "a" := PInt 1 ]} _);
      vm_compute; reflexivity.
  - refine (proj1 (proj2 (checker_counts_any_sized_value
                     (constant_server (Answers euro_items)) 7 [] euro_items
                     _ _ eq_refl eq_refl _) euro _));
      vm_compute; reflexivity.
  - vm_compute. reflexivity.
Defined.

Lemma count_ignores_other_members_witness :
  "errors" <> "data" /\
  item_count (PDict (<["errors" := PList [PStr "boom"]]> ∅)) = item_count (PDict ∅).
Proof.
  assert ("errors" <> "data") as Hk by discriminate.
  split; [exact Hk|].
  exact (proj1 (count_ignores_other_members ∅ ∅ "errors" (PList [PStr "boom"])) Hk).
Defined.

Lemma scripts_depend_on_their_calls_only_witness :
  run check_items (constant_server (Answers scenario_A)) =
    run check_items (failing_after 9 scenario_A Timeout) /\
  run query_outfit_items (constant_server (Answers scenario_C)) =
    run query_outfit_items (failing_after 1 scenario_C Timeout).
Proof.
  split.
  - apply (proj1 (scripts_depend_on_their_calls_only
                    (constant_server (Answers scenario_A))
                    (failing_after 9 scenario_A Timeout))).
    intros k Hk.
    assert (k = 1 \/ k = 2 \/ k = 3 \/ k = 4 \/ k = 5 \/ k = 6 \/
            k = 7 \/ k = 8 \/ k = 9) as Hcases by lia.
    repeat (destruct Hcases as [->|Hcases]); try subst k; reflexivity.
  - apply (proj2 (scripts_depend_on_their_calls_only
                    (constant_server (Answers scenario_C))
                    (failing_after 1 scenario_C Timeout))).
    reflexivity.
Defined.

Lemma checker_reads_only_the_parsed_body_witness :
  printed (snd (run check_items
     (constant_server
        (Answers (mkResponse 404 "not found" (Some (PDict {[ "data" := PDict ∅ ]}))))))) =
  printed (snd (run check_items (constant_server (Answers scenario_B)))).
Proof.
  apply (checker_reads_only_the_parsed_body
           (constant_server (Answers scenario_B))
           (constant_server
              (Answers (mkResponse 404 "not found" (Some (PDict {[ "data" := PDict ∅ ]})))))).
  intros k _. reflexivity.
Defined.

Lemma fetcher_reads_only_status_and_text_witness :
  stdout (snd (run query_outfit_items
     (constant_server (Answers (mkResponse 500 "Internal Error" (Some PNone)))))) =
  stdout (snd (run query_outfit_items (constant_server (Answers scenario_C)))).
Proof.
  apply (fetcher_reads_only_status_and_text
           (constant_server (Answers scenario_C))
           (constant_server (Answers (mkResponse 500 "Internal Error" (Some PNone))))).
  split; reflexivity.
Defined.


